(** * clips: a name-addressed, self-expiring clipboard store

    Shallow embedding of [clips.py] and the properties of its clipboard
    registry.

    Conventions of the embedding.
    - A Python [str] is a Rocq [string]; a non-ASCII character is held as
      its UTF-8 bytes, so that [bytes.decode()] is a validity check followed
      by a re-typing of the same bytes.  [str.lower] and [str.capitalize]
      are written out for the ASCII letters and leave every other byte
      alone, which is what Python does on ASCII text.
    - [time.time()] returns a float; a clock reading is an exact rational
      here and [+] and [<=] are exact.
    - Python objects live in a heap addressed by locations: the module
      level dict [clipboards] maps a name to the location of a [Clipboard]
      object, so that two references to one object are one location.
    - The clock and the random generator are oracles carried by the world:
      each call consumes the next reading.
    - A Python exception is an outcome [Raise e]; the world at the point of
      the raise is kept, as it is in Python. *)

From Stdlib Require Import QArith Lqa.
From Stdlib.Strings Require Import Ascii Byte.
From stdpp Require Import gmap strings list fin_maps.

Local Open Scope string_scope.

(** ** Constants *)

Definition TIMEOUT_SECS : Q := 900.
Definition NUM_RANDOM_WORDS : nat := 3.

(** ** Objects and the world *)

Definition loc := positive.

Record Clipboard := mkClipboard {
  name : string;
  text : string;
  timestamp : Q;
}.

Definition with_text (v : string) (c : Clipboard) : Clipboard :=
  {| name := name c; text := v; timestamp := timestamp c |}.

Definition with_timestamp (t : Q) (c : Clipboard) : Clipboard :=
  {| name := name c; text := text c; timestamp := t |}.

Record World := mkWorld {
  heap : gmap loc Clipboard;           (* every Clipboard object made so far *)
  clipboards : gmap string loc;        (* the module-level dict *)
  wordlist : list string;              (* the module-level list *)
  response_headers : gmap string string; (* cherrypy.response.headers *)
  clock : nat -> Q;                    (* successive values of time.time() *)
  ticks : nat;                         (* how many were consumed *)
  rng : nat -> nat;                    (* successive raw random draws *)
  draws : nat;                         (* how many were consumed *)
}.

Definition set_heap (h : gmap loc Clipboard) (w : World) : World :=
  mkWorld h (clipboards w) (wordlist w) (response_headers w)
          (clock w) (ticks w) (rng w) (draws w).

Definition set_clipboards (d : gmap string loc) (w : World) : World :=
  mkWorld (heap w) d (wordlist w) (response_headers w)
          (clock w) (ticks w) (rng w) (draws w).

Definition set_response_headers (h : gmap string string) (w : World) : World :=
  mkWorld (heap w) (clipboards w) (wordlist w) h
          (clock w) (ticks w) (rng w) (draws w).

Definition set_ticks (n : nat) (w : World) : World :=
  mkWorld (heap w) (clipboards w) (wordlist w) (response_headers w)
          (clock w) n (rng w) (draws w).

Definition set_draws (n : nat) (w : World) : World :=
  mkWorld (heap w) (clipboards w) (wordlist w) (response_headers w)
          (clock w) (ticks w) (rng w) n.

(** The reading the next call of [time.time()] returns. *)
Definition now (w : World) : Q := clock w (ticks w).

(** ** Exceptions and the monad of Python statements *)

Inductive exn :=
| HTTPError (status : Z)
| HTTPRedirect (url : string)
| KeyError (key : string)
| ValueError
| UnicodeDecodeError
| DanglingReference.   (* a location outside the heap; no Python run has one *)

Inductive outcome (A : Type) :=
| Return (a : A)
| Raise (e : exn).
Arguments Return {A} a.
Arguments Raise {A} e.

Definition M (A : Type) : Type := World -> World * outcome A.

Global Instance M_ret : MRet M := fun A (a : A) w => (w, Return a).

Global Instance M_bind : MBind M := fun A B (k : A -> M B) (m : M A) w =>
  match m w with
  | (w', Return a) => k a w'
  | (w', Raise e) => (w', Raise e)
  end.

Definition raise {A} (e : exn) : M A := fun w => (w, Raise e).

(** ** Primitive effects *)

Definition time_time : M Q :=
  fun w => (set_ticks (S (ticks w)) w, Return (now w)).

Definition alloc (c : Clipboard) : M loc :=
  fun w => let l := fresh (dom (heap w)) in
           (set_heap (<[l := c]> (heap w)) w, Return l).

Definition getattr {A} (self : loc) (field : Clipboard -> A) : M A :=
  fun w => match heap w !! self with
           | Some c => (w, Return (field c))
           | None => (w, Raise DanglingReference)
           end.

Definition setattr (self : loc) (upd : Clipboard -> Clipboard) : M unit :=
  fun w => match heap w !! self with
           | Some c => (set_heap (<[self := upd c]> (heap w)) w, Return tt)
           | None => (w, Raise DanglingReference)
           end.

(** ** class Clipboard *)

(** [Clipboard.__init__], together with the allocation of the object. *)
Definition Clipboard_init (n : string) : M loc :=
  t ← time_time;
  alloc {| name := n; text := ""; timestamp := t |}.

Definition Clipboard_get (self : loc) : M string :=
  ts ← getattr self timestamp;
  t ← time_time;
  (if Qle_bool (ts + TIMEOUT_SECS) t
   then setattr self (with_text "")
   else mret tt);;
  t' ← time_time;
  setattr self (with_timestamp t');;
  getattr self text.

Definition Clipboard_set (self : loc) (value : string) : M unit :=
  setattr self (with_text value);;
  t ← time_time;
  setattr self (with_timestamp t).

(** ** The [str] and [bytes] methods the program calls *)

Definition is_ascii_upper (c : ascii) : bool :=
  (65 <=? N_of_ascii c)%N && (N_of_ascii c <=? 90)%N.

Definition is_ascii_lower (c : ascii) : bool :=
  (97 <=? N_of_ascii c)%N && (N_of_ascii c <=? 122)%N.

Definition lower_char (c : ascii) : ascii :=
  if is_ascii_upper c then ascii_of_N (N_of_ascii c + 32) else c.

Definition upper_char (c : ascii) : ascii :=
  if is_ascii_lower c then ascii_of_N (N_of_ascii c - 32) else c.

(** [str.lower] *)
Fixpoint lower (s : string) : string :=
  match s with
  | EmptyString => EmptyString
  | String c r => String (lower_char c) (lower r)
  end.

(** [str.capitalize]: first character upper-cased, the rest lower-cased. *)
Definition capitalize (s : string) : string :=
  match s with
  | EmptyString => EmptyString
  | String c r => String (upper_char c) (lower r)
  end.

(** [sep.join(items)] *)
Definition join (sep : string) (items : list string) : string :=
  String.concat sep items.

Definition LF : ascii := ascii_of_N 10.
Definition CR : ascii := ascii_of_N 13.

(** Text-mode reading ([open(path, "r")], universal newlines): a carriage
    return, alone or followed by a line feed, is read as one line feed. *)
Fixpoint universal_newlines (s : string) : string :=
  match s with
  | EmptyString => EmptyString
  | String c r =>
      if decide (c = CR) then
        match r with
        | String c' r' =>
            if decide (c' = LF) then String LF (universal_newlines r')
            else String LF (universal_newlines r)
        | EmptyString => String LF EmptyString
        end
      else String c (universal_newlines r)
  end.

(** [f.readlines()] on text already read: the text is cut after every line
    feed and every line keeps its line feed; [cur] is the line being read. *)
Fixpoint readlines_from (cur : string) (s : string) : list string :=
  match s with
  | EmptyString => if decide (cur = EmptyString) then [] else [cur]
  | String c r =>
      if decide (c = LF) then (cur +:+ String LF EmptyString) :: readlines_from EmptyString r
      else readlines_from (cur +:+ String c EmptyString) r
  end.

Definition readlines (s : string) : list string := readlines_from EmptyString s.

(** [read_wordlist], as a function of the text of [wordlist.txt]. *)
Definition read_wordlist (wordlist_txt : string) : list string :=
  readlines (universal_newlines wordlist_txt).

(** [bytes.decode()]: strict UTF-8.  Well-formed sequences are those of
    RFC 3629 (no overlong form, no surrogate, nothing above U+10FFFF). *)
Definition byte_in (lo hi : N) (b : byte) : bool :=
  (lo <=? Byte.to_N b)%N && (Byte.to_N b <=? hi)%N.

Definition continuation (b : byte) : bool := byte_in 0x80 0xBF b.

Definition second_of_three (b0 b1 : byte) : bool :=
  if byte_in 0xE0 0xE0 b0 then byte_in 0xA0 0xBF b1
  else if byte_in 0xED 0xED b0 then byte_in 0x80 0x9F b1
  else continuation b1.

Definition second_of_four (b0 b1 : byte) : bool :=
  if byte_in 0xF0 0xF0 b0 then byte_in 0x90 0xBF b1
  else if byte_in 0xF4 0xF4 b0 then byte_in 0x80 0x8F b1
  else continuation b1.

Fixpoint utf8_valid (bs : list byte) : bool :=
  match bs with
  | [] => true
  | b0 :: r0 =>
      if byte_in 0x00 0x7F b0 then utf8_valid r0
      else match r0 with
      | [] => false
      | b1 :: r1 =>
          if byte_in 0xC2 0xDF b0 then continuation b1 && utf8_valid r1
          else match r1 with
          | [] => false
          | b2 :: r2 =>
              if byte_in 0xE0 0xEF b0
              then second_of_three b0 b1 && continuation b2 && utf8_valid r2
              else match r2 with
              | [] => false
              | b3 :: r3 =>
                  if byte_in 0xF0 0xF4 b0
                  then second_of_four b0 b1 && continuation b2
                       && continuation b3 && utf8_valid r3
                  else false
              end
          end
      end
  end.

Definition decode (bs : list byte) : M string :=
  if utf8_valid bs then mret (String.string_of_list_byte bs)
  else raise UnicodeDecodeError.

(** ** [random.sample]

    Library code, outside the repository.  It is given by its contract:
    [k] positions of the population drawn without replacement, in the order
    drawn, and [ValueError] when the sample is larger than the population.
    Every draw takes the next raw number of the generator. *)

Definition randbelow (n : nat) : M nat :=
  fun w => (set_draws (S (draws w)) w, Return (rng w (draws w) `mod` n)).

Fixpoint sample_from {A} (pool : list A) (k : nat) : M (list A) :=
  match k with
  | O => mret []
  | S k' =>
      j ← randbelow (length pool);
      match pool !! j with
      | Some x => rest ← sample_from (delete j pool) k'; mret (x :: rest)
      | None => raise ValueError
      end
  end.

Definition random_sample {A} (population : list A) (k : nat) : M (list A) :=
  if decide (k ≤ length population)%nat then sample_from population k
  else raise ValueError.

(** ** The request and the response *)

Record Request := mkRequest {
  method : string;
  headers : gmap string string;
  body : list byte;
}.

Inductive page := IndexPage | ClipPage.

(** What a handler returns: one of the two fixed HTML pages, a text, or
    [None]. *)
Inductive response :=
| Html (p : page)
| Text (s : string)
| NoBody.

(** [cherrypy.request.headers[key]] *)
Definition request_header (req : Request) (key : string) : M string :=
  match headers req !! key with
  | Some v => mret v
  | None => raise (KeyError key)
  end.

(** [cherrypy.response.headers[key] = v] *)
Definition set_response_header (key v : string) : M unit :=
  fun w => (set_response_headers (<[key := v]> (response_headers w)) w, Return tt).

(** [clipboards.get(key)] and [clipboards[key] = l] *)
Definition dict_get (key : string) : M (option loc) :=
  fun w => (w, Return (clipboards w !! key)).

Definition dict_setitem (key : string) (l : loc) : M unit :=
  fun w => (set_clipboards (<[key := l]> (clipboards w)) w, Return tt).

Definition read_global_wordlist : M (list string) :=
  fun w => (w, Return (wordlist w)).

(** ** class ClipsController *)

Module ClipsController.

Definition do_index : M response := mret (Html IndexPage).

Definition do_clip : M response := mret (Html ClipPage).

Definition do_random : M response :=
  wl ← read_global_wordlist;
  words ← random_sample wl NUM_RANDOM_WORDS;
  let name := join "" (map capitalize words) in
  raise (HTTPRedirect ("/" +:+ name)).

Definition get_clipboard (name : string) : M loc :=
  clipboard ← dict_get name;
  match clipboard with
  | Some l => mret l
  | None =>
      l ← Clipboard_init name;
      dict_setitem name l;;
      mret l
  end.

Definition get_text (name : string) : M response :=
  clipboard ← get_clipboard name;
  set_response_header "Content-Type" "text/plain";;
  s ← Clipboard_get clipboard;
  mret (Text s).

Definition set_text (req : Request) (name : string) : M response :=
  ct ← request_header req "Content-Type";
  if decide (ct ≠ "text/plain") then raise (HTTPError 400)
  else
    text ← decode (body req);
    clipboard ← get_clipboard name;
    Clipboard_set clipboard text;;
    mret NoBody.

Definition do_text (req : Request) (name : string) : M response :=
  if decide (method req = "GET") then get_text name
  else if decide (method req = "POST") then set_text req name
  else raise (HTTPError 405).

Definition default (req : Request) (segs : list string) : M response :=
  if decide (length segs = 0%nat) then do_index
  else if decide (length segs = 1%nat ∧ lower (nth 0 segs "") = "random")
  then do_random
  else if decide (length segs = 1%nat) then do_clip
  else if decide (length segs = 2%nat ∧ lower (nth 1 segs "") = "text")
  then do_text req (lower (nth 0 segs ""))
  else raise (HTTPError 404).

End ClipsController.

(** The world when the module has been imported: no object, an empty
    dict, the word list read from the file. *)
Definition boot (wordlist_txt : string) (clk : nat -> Q) (r : nat -> nat) : World :=
  mkWorld ∅ ∅ (read_wordlist wordlist_txt) ∅ clk 0 r 0.

(** ** What the methods leave behind *)

(** The object after [get] read [t] for the test and [t'] for the stamp. *)
Definition after_get (c : Clipboard) (t t' : Q) : Clipboard :=
  {| name := name c;
     text := if Qle_bool (timestamp c + TIMEOUT_SECS) t then "" else text c;
     timestamp := t' |}.

(** The object after [set value] read [t]. *)
Definition after_set (c : Clipboard) (value : string) (t : Q) : Clipboard :=
  {| name := name c; text := value; timestamp := t |}.

(** The world [get_clipboard name] leaves when [name] is not in the dict. *)
Definition created (name : string) (w : World) : World :=
  let l := fresh (dom (heap w)) in
  mkWorld (<[l := {| name := name; text := ""; timestamp := now w |}]> (heap w))
          (<[name := l]> (clipboards w))
          (wordlist w) (response_headers w)
          (clock w) (S (ticks w)) (rng w) (draws w).

(** Every entry of the dict is a live object that carries its key as its
    name.  It holds at [boot] and every operation keeps it. *)
Definition wf (w : World) : Prop :=
  forall (n : string) (l : loc),
    clipboards w !! n = Some l ->
    exists c, heap w !! l = Some c /\ name c = n.

(** ** Sequences of store operations *)

Inductive op :=
| GetOrCreate (name : string)                 (* get_clipboard *)
| Read (name : string)                        (* get_text *)
| Write (req : Request) (name : string)       (* set_text *)
| Serve (req : Request) (segs : list string). (* default *)

Definition run_op (o : op) (w : World) : World :=
  match o with
  | GetOrCreate n => fst (ClipsController.get_clipboard n w)
  | Read n => fst (ClipsController.get_text n w)
  | Write req n => fst (ClipsController.set_text req n w)
  | Serve req segs => fst (ClipsController.default req segs w)
  end.

Fixpoint run_ops (ops : list op) (w : World) : World :=
  match ops with
  | [] => w
  | o :: rest => run_ops rest (run_op o w)
  end.

(** The name an operation may look up in the dict. *)
Definition touches (o : op) (n : string) : Prop :=
  match o with
  | GetOrCreate m | Read m | Write _ m => m = n
  | Serve _ segs => length segs = 2%nat /\ lower (nth 0 segs "") = n
  end.

(** A request that [set_text] accepts. *)
Definition plain_text_post (body : list byte) : Request :=
  mkRequest "POST" {[ "Content-Type" := "text/plain" ]} body.

Definition get_request : Request := mkRequest "GET" ∅ [].

(** [acts_on m w w']: [w'] comes from [w] by an operation that looks up no
    name but [m].  The dict only grows, well-formedness is kept, and the
    objects of the other names are as they were. *)
Definition acts_on (m : string) (w w' : World) : Prop :=
  clipboards w ⊆ clipboards w' /\
  (wf w -> wf w') /\
  (forall (n : string) (l : loc),
      wf w -> n <> m -> clipboards w !! n = Some l ->
      heap w' !! l = heap w !! l).

(** [idle w w']: no object and no dict entry differs. *)
Definition idle (w w' : World) : Prop :=
  heap w' = heap w /\ clipboards w' = clipboards w.

(** ** Names that differ in letter case only *)




(** ** Sequences of accesses to one clipboard *)

Inductive access :=
| CallGet                     (* Clipboard.get() *)
| CallSet (value : string).   (* Clipboard.set(value) *)

Definition run_access (self : loc) (w : World) (a : access) : World :=
  match a with
  | CallGet => fst (Clipboard_get self w)
  | CallSet v => fst (Clipboard_set self v w)
  end.

Definition run_accesses (self : loc) (acc : list access) (w : World) : World :=
  foldl (run_access self) w acc.


(** ** Calls of [get_clipboard] that overlap

    The server gives every request to a thread of a pool, and the code
    takes no lock.  A call of [get_clipboard] is cut here at the points
    between its statements where another thread may run: after the dict
    lookup, and between the construction of the new object and its entry
    in the dict. *)

Inductive frame :=
| Called (name : string)                       (* nothing run yet *)
| Looked (name : string) (clipboard : option loc)  (* clipboards.get(name) done *)
| Built (name : string) (clipboard : loc)      (* Clipboard(name) done *)
| Returned (clipboard : loc).                  (* the call is over *)

Definition step (f : frame) : M frame :=
  match f with
  | Called name => clipboard ← dict_get name; mret (Looked name clipboard)
  | Looked name (Some l) => mret (Returned l)
  | Looked name None => l ← Clipboard_init name; mret (Built name l)
  | Built name l => dict_setitem name l;; mret (Returned l)
  | Returned l => mret (Returned l)
  end.

(** One thread runs its whole call without interruption. *)
Definition run_alone (f : frame) : M frame :=
  f1 ← step f; f2 ← step f1; step f2.

(** Thread [i] of the pool takes one step. *)
Definition schedule_step (st : World * list frame) (i : nat) : World * list frame :=
  match st.2 !! i with
  | Some f =>
      match step f st.1 with
      | (w', Return f') => (w', <[i := f']> st.2)
      | (w', Raise _) => (w', st.2)
      end
  | None => st
  end.

Definition interleave (sched : list nat) (w : World) (pool : list frame)
  : World * list frame :=
  foldl schedule_step (w, pool) sched.

(** The schedule in which [k] threads run one after the other. *)
Definition serial (k : nat) : list nat :=
  flat_map (fun i => [i; i; i]) (seq 0 k).

(** The lookup of the first thread, the lookup of the second, then the
    rest of the first call and the rest of the second. *)
Definition racing : list nat := [0; 1; 0; 0; 1; 1]%nat.

(** What the specification asks of two overlapping calls for a name that
    is not in the dict: one object is made and both calls return it. *)
Definition creation_is_atomic : Prop :=
  forall (w w' : World) (n : string) (sched : list nat) (l1 l2 : loc),
    clipboards w !! n = None ->
    interleave sched w [Called n; Called n] = (w', [Returned l1; Returned l2]) ->
    l1 = l2 /\ size (heap w') = S (size (heap w)).

(** ** Line feeds in a name *)

Fixpoint count_LF (s : string) : nat :=
  match s with
  | EmptyString => 0
  | String c r => (if decide (c = LF) then 1 else 0) + count_LF r
  end.


(** ** Clocks that do not run backwards *)

(** [later w w']: the same clock, read at least as often. *)
Definition later (w w' : World) : Prop :=
  clock w' = clock w /\ (ticks w <= ticks w')%nat.

(** A statement that leaves the clock alone and only consumes readings. *)
Definition advances {A} (m : M A) : Prop :=
  forall w : World, later w (fst (m w)).

Definition monotone (clk : nat -> Q) : Prop :=
  forall i j : nat, (i <= j)%nat -> (clk i <= clk j)%Q.


(** ** Sample worlds *)

(** A clock that advances 500 seconds at every reading. *)
Definition coarse_clock (n : nat) : Q := inject_Z (Z.of_nat n * 500).

(** A clock that advances one second at every reading. *)
Definition fine_clock (n : nat) : Q := inject_Z (Z.of_nat n).

Definition three_words : string :=
  "alpha" +:+ String LF ("bravo" +:+ String LF ("charlie" +:+ String LF "")).

Definition coarse_world : World := boot three_words coarse_clock id.
Definition fine_world : World := boot three_words fine_clock id.

(** The body [hello]. *)
Definition hello : list byte := [x68; x65; x6c; x6c; x6f].

(** [POST /demo/text] with body [hello] served in [coarse_world]. *)
Definition coarse_written : World :=
  run_op (Write (plain_text_post hello) "demo") coarse_world.

Definition fine_written : World :=
  run_op (Write (plain_text_post hello) "demo") fine_world.

(** A clock that stands still for its first two readings and then jumps
    by 901 seconds: a write, then nothing for 901 seconds. *)
Definition jumping_clock (n : nat) : Q :=
  if (n <? 2)%nat then 0 else inject_Z (901 + Z.of_nat n).

Definition jumping_world : World := boot three_words jumping_clock id.

(** ** Steps of the store

    Every operation is a sequence of steps of three kinds, all on behalf
    of the one name [m] the operation is about. *)

Inductive basic (m : string) (w w' : World) : Prop :=
| basic_idle :
    heap w' = heap w -> clipboards w' = clipboards w ->
    wordlist w' = wordlist w -> later w w' ->
    basic m w w'
| basic_create :
    clipboards w !! m = None ->
    heap w' = <[fresh (dom (heap w)) :=
                  {| name := m; text := ""; timestamp := now w |}]> (heap w) ->
    clipboards w' = <[m := fresh (dom (heap w))]> (clipboards w) ->
    wordlist w' = wordlist w ->
    clock w' = clock w -> ticks w' = S (ticks w) ->
    basic m w w'
| basic_update (l : loc) (c c' : Clipboard) :
    clipboards w !! m = Some l -> heap w !! l = Some c ->
    name c' = name c ->
    (exists k : nat, (ticks w <= k < ticks w')%nat /\ timestamp c' = clock w k) ->
    heap w' = <[l := c']> (heap w) -> clipboards w' = clipboards w ->
    wordlist w' = wordlist w -> later w w' ->
    basic m w w'.

(** [reach w w']: [w'] comes from [w] by steps, on behalf of any names. *)
Definition reach : World -> World -> Prop :=
  rtc (fun a b => exists m : string, basic m a b).

(** The dict and the heap are in one-to-one correspondence: every entry
    is a live object that carries its key as its name, and every object
    is the entry of its name. *)
Definition tight (w : World) : Prop :=
  wf w /\
  forall (l : loc) (c : Clipboard),
    heap w !! l = Some c -> clipboards w !! name c = Some l.

(** Every timestamp is a clock reading that has been consumed. *)
Definition stamped (w : World) : Prop :=
  forall (l : loc) (c : Clipboard),
    heap w !! l = Some c ->
    exists k : nat, (k < ticks w)%nat /\ timestamp c = clock w k.

(** Every key of the dict is in lower case. *)
Definition normalized (w : World) : Prop :=
  forall (n : string) (l : loc), clipboards w !! n = Some l -> lower n = n.

Fixpoint count_CR (s : string) : nat :=
  match s with
  | EmptyString => 0
  | String c r => (if decide (c = CR) then 1 else 0) + count_CR r
  end.

(** A line as [readlines] delivers it: no carriage return, not empty,
    and no line feed but possibly one at its very end. *)
Definition well_cut (x : string) : Prop :=
  count_CR x = 0%nat /\
  exists b : string,
    count_LF b = 0%nat /\
    (x = b +:+ String LF EmptyString \/ (x = b /\ b <> EmptyString)).

(** The name an operation is about. *)
Definition subject (o : op) : string :=
  match o with
  | GetOrCreate n | Read n | Write _ n => n
  | Serve _ segs => lower (nth 0 segs "")
  end.

(** [POST /demo/text] with body [hello] served in [jumping_world]: the
    next clock reading comes more than 900 seconds after the write. *)
Definition jumping_written : World :=
  run_op (Write (plain_text_post hello) "demo") jumping_world.

(** * Running the methods *)

Local Open Scope list_scope.

Ltac run_py :=
  unfold mbind, M_bind, mret, M_ret, raise, getattr, setattr, time_time,
    alloc, dict_get, dict_setitem, set_response_header, request_header,
    read_global_wordlist, randbelow, now in *;
  cbn in *.

Lemma fresh_loc_unused (w : World) : heap w !! fresh (dom (heap w)) = None.
Proof. apply not_elem_of_dom, is_fresh. Qed.

Lemma Clipboard_get_run (w : World) (self : loc) (c : Clipboard) :
  heap w !! self = Some c ->
  Clipboard_get self w =
    (set_ticks (S (S (ticks w)))
       (set_heap (<[self := after_get c (now w) (clock w (S (ticks w)))]> (heap w)) w),
     Return (text (after_get c (now w) (clock w (S (ticks w)))))).
Proof.
  intros Hc. unfold Clipboard_get, after_get. run_py. rewrite Hc. cbn.
  destruct (Qle_bool (timestamp c + TIMEOUT_SECS) (clock w (ticks w))); cbn.
  - rewrite Hc. cbn. rewrite !lookup_insert_eq. cbn.
    rewrite !insert_insert_eq, lookup_insert_eq. reflexivity.
  - rewrite Hc. cbn. rewrite !lookup_insert_eq. reflexivity.
Qed.

Lemma Clipboard_set_run (w : World) (self : loc) (c : Clipboard) (value : string) :
  heap w !! self = Some c ->
  Clipboard_set self value w =
    (set_ticks (S (ticks w))
       (set_heap (<[self := after_set c value (now w)]> (heap w)) w),
     Return tt).
Proof.
  intros Hc. unfold Clipboard_set, after_set. run_py. rewrite Hc. cbn.
  rewrite lookup_insert_eq, insert_insert_eq. reflexivity.
Qed.

Lemma Clipboard_init_run (w : World) (n : string) :
  Clipboard_init n w =
    (set_heap (<[fresh (dom (heap w)) := {| name := n; text := ""; timestamp := now w |}]> (heap w))
       (set_ticks (S (ticks w)) w),
     Return (fresh (dom (heap w)))).
Proof. reflexivity. Qed.

Lemma get_clipboard_hit (w : World) (n : string) (l : loc) :
  clipboards w !! n = Some l ->
  ClipsController.get_clipboard n w = (w, Return l).
Proof.
  intros Hn. unfold ClipsController.get_clipboard. run_py. rewrite Hn. reflexivity.
Qed.

Lemma get_clipboard_miss (w : World) (n : string) :
  clipboards w !! n = None ->
  ClipsController.get_clipboard n w = (created n w, Return (fresh (dom (heap w)))).
Proof.
  intros Hn. unfold ClipsController.get_clipboard. run_py. rewrite Hn. reflexivity.
Qed.

Lemma created_lookup (w : World) (n : string) :
  clipboards (created n w) !! n = Some (fresh (dom (heap w))) /\
  heap (created n w) !! fresh (dom (heap w))
    = Some {| name := n; text := ""; timestamp := now w |}.
Proof. unfold created; cbn. by rewrite !lookup_insert_eq. Qed.

(** [get_clipboard] never raises, and says what it returns. *)
Lemma get_clipboard_total (w : World) (n : string) :
  exists w1 l, ClipsController.get_clipboard n w = (w1, Return l) /\
               clipboards w1 !! n = Some l.
Proof.
  destruct (clipboards w !! n) as [l|] eqn:Hn.
  - exists w, l. by rewrite (get_clipboard_hit _ _ _ Hn).
  - exists (created n w), (fresh (dom (heap w))).
    rewrite (get_clipboard_miss _ _ Hn). split; [done|]. apply created_lookup.
Qed.

Lemma get_text_run (w w1 : World) (n : string) (l : loc) (c : Clipboard) :
  ClipsController.get_clipboard n w = (w1, Return l) ->
  heap w1 !! l = Some c ->
  ClipsController.get_text n w =
    (set_ticks (S (S (ticks w1)))
       (set_heap (<[l := after_get c (now w1) (clock w1 (S (ticks w1)))]> (heap w1))
          (set_response_headers
             (<["Content-Type" := "text/plain"]> (response_headers w1)) w1)),
     Return (Text (text (after_get c (now w1) (clock w1 (S (ticks w1))))))).
Proof.
  intros Hg Hc. unfold ClipsController.get_text.
  unfold mbind at 1, M_bind at 1. rewrite Hg.
  unfold mbind at 1, M_bind at 1, set_response_header at 1.
  unfold mbind at 1, M_bind at 1.
  erewrite Clipboard_get_run by exact Hc. reflexivity.
Qed.

Lemma set_text_run (w w1 : World) (req : Request) (n : string) (l : loc) (c : Clipboard) :
  headers req !! "Content-Type" = Some "text/plain" ->
  utf8_valid (body req) = true ->
  ClipsController.get_clipboard n w = (w1, Return l) ->
  heap w1 !! l = Some c ->
  ClipsController.set_text req n w =
    (set_ticks (S (ticks w1))
       (set_heap (<[l := after_set c (String.string_of_list_byte (body req)) (now w1)]>
                    (heap w1)) w1),
     Return NoBody).
Proof.
  intros Hct Hv Hg Hc. unfold ClipsController.set_text, request_header, decode.
  rewrite Hct, Hv.
  unfold mbind at 1, M_bind at 1, mret at 1, M_ret at 1.
  rewrite decide_False by (intros H; by apply H).
  unfold mbind at 1, M_bind at 1, mret at 1, M_ret at 1.
  unfold mbind at 1, M_bind at 1. rewrite Hg.
  unfold mbind at 1, M_bind at 1.
  erewrite Clipboard_set_run by exact Hc. reflexivity.
Qed.

Lemma Clipboard_get_dangling (w : World) (self : loc) :
  heap w !! self = None ->
  Clipboard_get self w = (w, Raise DanglingReference).
Proof. intros H. unfold Clipboard_get. run_py. by rewrite H. Qed.

Lemma Clipboard_set_dangling (w : World) (self : loc) (v : string) :
  heap w !! self = None ->
  Clipboard_set self v w = (w, Raise DanglingReference).
Proof. intros H. unfold Clipboard_set. run_py. by rewrite H. Qed.

(** A write is turned down before the store is looked at. *)
Lemma set_text_rejected (w : World) (req : Request) (n : string) :
  headers req !! "Content-Type" <> Some "text/plain" \/
  utf8_valid (body req) = false ->
  ClipsController.set_text req n w =
    (w, Raise match headers req !! "Content-Type" with
              | None => KeyError "Content-Type"
              | Some ct => if decide (ct = "text/plain")
                           then UnicodeDecodeError else HTTPError 400
              end).
Proof.
  intros H. unfold ClipsController.set_text, request_header, decode.
  destruct (headers req !! "Content-Type") as [ct|] eqn:Hct; [|done].
  unfold mbind at 1, M_bind at 1, mret at 1, M_ret at 1.
  destruct (decide (ct = "text/plain")) as [->|Hne].
  - rewrite decide_False by (intros H'; by apply H').
    destruct H as [H|H]; [done|]. by rewrite H.
  - by rewrite decide_True.
Qed.





(** * Well-formed worlds *)

Lemma wf_boot (txt : string) (clk : nat -> Q) (r : nat -> nat) : wf (boot txt clk r).
Proof. intros n l H. cbn in H. by rewrite lookup_empty in H. Qed.

Lemma wf_idle (w w' : World) : idle w w' -> wf w -> wf w'.
Proof. intros [Hh Hd] Hwf n l. rewrite Hh, Hd. apply Hwf. Qed.

Lemma wf_update (w w' : World) (l : loc) (c c' : Clipboard) :
  wf w -> clipboards w' = clipboards w ->
  heap w' = <[l := c']> (heap w) ->
  heap w !! l = Some c -> name c' = name c ->
  wf w'.
Proof.
  intros Hwf Hd Hh Hc Hn n l0 Hl0. rewrite Hd in Hl0. rewrite Hh.
  destruct (Hwf _ _ Hl0) as (c0 & Hc0 & Hn0).
  destruct (decide (l = l0)) as [->|Hne].
  - rewrite lookup_insert_eq. exists c'. split; [done|]. congruence.
  - rewrite lookup_insert_ne by done. eauto.
Qed.

Lemma wf_created (w : World) (n : string) : wf w -> wf (created n w).
Proof.
  intros Hwf m l. unfold created; cbn.
  destruct (decide (n = m)) as [->|Hne].
  - rewrite lookup_insert_eq. intros [= <-]. rewrite lookup_insert_eq. eauto.
  - rewrite lookup_insert_ne by done. intros Hm.
    destruct (Hwf _ _ Hm) as (c & Hc & Hn).
    rewrite lookup_insert_ne; [eauto|].
    intros Heq. pose proof (fresh_loc_unused w) as Hf. rewrite Heq in Hf. congruence.
Qed.

(** Two names never share an object. *)
Lemma wf_no_alias (w : World) (n m : string) (l : loc) :
  wf w -> clipboards w !! n = Some l -> clipboards w !! m = Some l -> n = m.
Proof.
  intros Hwf Hn Hm.
  destruct (Hwf _ _ Hn) as (c & Hc & <-).
  destruct (Hwf _ _ Hm) as (c' & Hc' & <-). congruence.
Qed.

(** * The effect of each operation on the store *)

Lemma idle_refl (w : World) : idle w w.
Proof. done. Qed.

Lemma idle_acts_on (m : string) (w w' : World) : idle w w' -> acts_on m w w'.
Proof.
  intros Hi. split; [|split].
  - destruct Hi as [_ ->]. done.
  - by apply wf_idle.
  - intros n l _ _ _. by destruct Hi as [-> _].
Qed.

Lemma acts_on_update (m : string) (w w' : World) (l : loc) (c c' : Clipboard) :
  clipboards w !! m = Some l ->
  clipboards w' = clipboards w ->
  heap w' = <[l := c']> (heap w) ->
  heap w !! l = Some c -> name c' = name c ->
  acts_on m w w'.
Proof.
  intros Hm Hd Hh Hc Hn. split; [|split].
  - by rewrite Hd.
  - intros Hwf. by eapply wf_update.
  - intros n l0 Hwf Hne Hl0. rewrite Hh. apply lookup_insert_ne.
    intros ->. apply Hne. by eapply wf_no_alias.
Qed.

Lemma acts_on_created (m : string) (w : World) :
  clipboards w !! m = None -> acts_on m w (created m w).
Proof.
  intros Hm. split; [|split].
  - unfold created; cbn. by apply insert_subseteq.
  - apply wf_created.
  - intros n l Hwf Hne Hl. unfold created; cbn. apply lookup_insert_ne.
    intros Heq. destruct (Hwf _ _ Hl) as (c & Hc & _).
    pose proof (fresh_loc_unused w) as Hf. rewrite Heq in Hf. congruence.
Qed.

Lemma acts_on_trans (m : string) (w1 w2 w3 : World) :
  acts_on m w1 w2 -> acts_on m w2 w3 -> acts_on m w1 w3.
Proof.
  intros (Hd1 & Hw1 & Hf1) (Hd2 & Hw2 & Hf2). split; [|split].
  - by etrans.
  - auto.
  - intros n l Hwf Hne Hl. rewrite <- (Hf1 n l) by done.
    apply (Hf2 n l); auto. eapply lookup_weaken; eauto.
Qed.

Lemma get_clipboard_acts_on (w : World) (m : string) :
  acts_on m w (fst (ClipsController.get_clipboard m w)).
Proof.
  destruct (clipboards w !! m) as [l|] eqn:Hm.
  - rewrite (get_clipboard_hit _ _ _ Hm). apply idle_acts_on, idle_refl.
  - rewrite (get_clipboard_miss _ _ Hm). by apply acts_on_created.
Qed.

Lemma get_text_acts_on (w : World) (m : string) :
  acts_on m w (fst (ClipsController.get_text m w)).
Proof.
  destruct (clipboards w !! m) as [l|] eqn:Hm.
  - pose proof (get_clipboard_hit _ _ _ Hm) as Hg.
    destruct (heap w !! l) as [c|] eqn:Hc.
    + rewrite (get_text_run _ _ _ _ _ Hg Hc). cbn.
      eapply acts_on_update; eauto.
    + unfold ClipsController.get_text.
      unfold mbind at 1, M_bind at 1. rewrite Hg.
      unfold mbind at 1, M_bind at 1, set_response_header at 1.
      unfold mbind at 1, M_bind at 1.
      rewrite Clipboard_get_dangling by done. cbn.
      by apply idle_acts_on.
  - pose proof (get_clipboard_miss _ _ Hm) as Hg.
    destruct (created_lookup w m) as [Hd Hh].
    rewrite (get_text_run _ _ _ _ _ Hg Hh). cbn -[created].
    eapply acts_on_trans; [by apply acts_on_created|].
    eapply acts_on_update; eauto.
Qed.

Lemma set_text_acts_on (w : World) (req : Request) (m : string) :
  acts_on m w (fst (ClipsController.set_text req m w)).
Proof.
  destruct (decide (headers req !! "Content-Type" = Some "text/plain")) as [Hct|Hct];
    [destruct (utf8_valid (body req)) eqn:Hv|].
  - destruct (clipboards w !! m) as [l|] eqn:Hm.
    + pose proof (get_clipboard_hit _ _ _ Hm) as Hg.
      destruct (heap w !! l) as [c|] eqn:Hc.
      * rewrite (set_text_run _ _ _ _ _ _ Hct Hv Hg Hc). cbn.
        eapply acts_on_update; eauto.
      * unfold ClipsController.set_text, request_header, decode.
        rewrite Hct, Hv.
        unfold mbind at 1, M_bind at 1, mret at 1, M_ret at 1.
        rewrite decide_False by (intros H; by apply H).
        unfold mbind at 1, M_bind at 1, mret at 1, M_ret at 1.
        unfold mbind at 1, M_bind at 1. rewrite Hg.
        unfold mbind at 1, M_bind at 1.
        rewrite Clipboard_set_dangling by done. cbn.
        by apply idle_acts_on.
    + pose proof (get_clipboard_miss _ _ Hm) as Hg.
      destruct (created_lookup w m) as [Hd Hh].
      rewrite (set_text_run _ _ _ _ _ _ Hct Hv Hg Hh). cbn -[created].
      eapply acts_on_trans; [by apply acts_on_created|].
      eapply acts_on_update; eauto.
  - rewrite set_text_rejected by auto. by apply idle_acts_on.
  - rewrite set_text_rejected by auto. by apply idle_acts_on.
Qed.

Lemma do_text_acts_on (w : World) (req : Request) (m : string) :
  acts_on m w (fst (ClipsController.do_text req m w)).
Proof.
  unfold ClipsController.do_text. repeat case_decide.
  - apply get_text_acts_on.
  - apply set_text_acts_on.
  - by apply idle_acts_on.
Qed.

(** Sampling moves the generator on and nothing else. *)
Lemma sample_from_idle {A} (pool : list A) (k : nat) (w : World) :
  idle w (fst (sample_from pool k w)).
Proof.
  revert pool w. induction k as [|k IH]; intros pool w; [done|].
  cbn. unfold mbind at 1, M_bind at 1, randbelow at 1.
  destruct (pool !! _) as [x|]; [|done].
  unfold mbind, M_bind.
  match goal with |- context [sample_from ?p k ?w'] =>
    specialize (IH p w'); destruct (sample_from p k w') as [w2 [r|e]] end;
    exact IH.
Qed.

Lemma do_random_idle (w : World) : idle w (fst (ClipsController.do_random w)).
Proof.
  unfold ClipsController.do_random.
  unfold mbind at 1, M_bind at 1, read_global_wordlist at 1.
  unfold mbind, M_bind, random_sample. case_decide; [|done].
  pose proof (sample_from_idle (wordlist w) NUM_RANDOM_WORDS w) as Hi.
  destruct (sample_from (wordlist w) NUM_RANDOM_WORDS w) as [w2 [r|e]]; exact Hi.
Qed.

(** A request acts on the name of its first segment, lower-cased, when it
    has two segments, and on nothing otherwise. *)
Lemma default_effect (w : World) (req : Request) (segs : list string) :
  let w' := fst (ClipsController.default req segs w) in
  idle w w' \/ (length segs = 2%nat /\ acts_on (lower (nth 0 segs "")) w w').
Proof.
  cbn. unfold ClipsController.default. repeat case_decide.
  - by left.
  - left. apply do_random_idle.
  - by left.
  - right. split; [tauto|]. apply do_text_acts_on.
  - by left.
Qed.

Lemma run_op_subseteq (o : op) (w : World) :
  clipboards w ⊆ clipboards (run_op o w).
Proof.
  destruct o as [n|n|req n|req segs]; cbn.
  - exact (proj1 (get_clipboard_acts_on w n)).
  - exact (proj1 (get_text_acts_on w n)).
  - exact (proj1 (set_text_acts_on w req n)).
  - destruct (default_effect w req segs) as [[_ ->]|[_ [H _]]]; done.
Qed.

Lemma run_op_wf (o : op) (w : World) : wf w -> wf (run_op o w).
Proof.
  destruct o as [n|n|req n|req segs]; cbn.
  - exact (proj1 (proj2 (get_clipboard_acts_on w n))).
  - exact (proj1 (proj2 (get_text_acts_on w n))).
  - exact (proj1 (proj2 (set_text_acts_on w req n))).
  - destruct (default_effect w req segs) as [Hi|[_ (_ & H & _)]];
      [by apply wf_idle | done].
Qed.

Lemma run_op_frame (o : op) (w : World) (n : string) (l : loc) :
  wf w -> ~ touches o n -> clipboards w !! n = Some l ->
  heap (run_op o w) !! l = heap w !! l.
Proof.
  intros Hwf Ht Hl.
  destruct o as [m|m|req m|req segs]; cbn in *.
  - apply (proj2 (proj2 (get_clipboard_acts_on w m)) n l); auto.
  - apply (proj2 (proj2 (get_text_acts_on w m)) n l); auto.
  - apply (proj2 (proj2 (set_text_acts_on w req m)) n l); auto.
  - destruct (default_effect w req segs) as [[-> _]|[Hlen (_ & _ & H)]]; [done|].
    apply (H n l); auto.
Qed.

Lemma run_ops_subseteq (ops : list op) (w : World) :
  clipboards w ⊆ clipboards (run_ops ops w).
Proof.
  revert w. induction ops as [|o ops IH]; intros w; cbn; [done|].
  etrans; [apply run_op_subseteq | apply IH].
Qed.

Lemma run_ops_wf (ops : list op) (w : World) : wf w -> wf (run_ops ops w).
Proof.
  revert w. induction ops as [|o ops IH]; intros w Hwf; cbn; [done|].
  by apply IH, run_op_wf.
Qed.

Lemma run_ops_frame (ops : list op) (w : World) (n : string) (l : loc) :
  wf w -> Forall (fun o => ~ touches o n) ops -> clipboards w !! n = Some l ->
  clipboards (run_ops ops w) !! n = Some l /\
  heap (run_ops ops w) !! l = heap w !! l.
Proof.
  revert w. induction ops as [|o ops IH]; intros w Hwf Hall Hl; cbn; [done|].
  inversion Hall as [|? ? Ho Hrest]; subst.
  destruct (IH (run_op o w)) as [Hd Hh].
  - by apply run_op_wf.
  - done.
  - eapply lookup_weaken; [exact Hl | apply run_op_subseteq].
  - split; [done|]. rewrite Hh. by apply (run_op_frame o w n l).
Qed.

(** * Operations only move the clock forward *)

Lemma later_refl (w : World) : later w w.
Proof. by split. Qed.

Lemma later_trans (w1 w2 w3 : World) : later w1 w2 -> later w2 w3 -> later w1 w3.
Proof. intros [Hc1 Ht1] [Hc2 Ht2]. split; [congruence | lia]. Qed.

Lemma advances_ret {A} (a : A) : advances (mret a).
Proof. intros w. split; cbn; [done | lia]. Qed.

Lemma advances_raise {A} (e : exn) : advances (@raise A e).
Proof. intros w. split; cbn; [done | lia]. Qed.

Lemma advances_bind {A B} (m : M A) (k : A -> M B) :
  advances m -> (forall a, advances (k a)) -> advances (m ≫= k).
Proof.
  intros Hm Hk w. unfold mbind, M_bind. specialize (Hm w).
  destruct (m w) as [w' [a|e]]; cbn in *; [|done].
  eapply later_trans; [exact Hm | apply Hk].
Qed.

Lemma advances_time_time : advances time_time.
Proof. intros w. split; cbn; [done | lia]. Qed.

Lemma advances_alloc (c : Clipboard) : advances (alloc c).
Proof. intros w. split; cbn; [done | lia]. Qed.

Lemma advances_getattr {A} (self : loc) (field : Clipboard -> A) :
  advances (getattr self field).
Proof. intros w. unfold getattr. destruct (heap w !! self); (split; cbn; [done | lia]). Qed.

Lemma advances_setattr (self : loc) (upd : Clipboard -> Clipboard) :
  advances (setattr self upd).
Proof. intros w. unfold setattr. destruct (heap w !! self); (split; cbn; [done | lia]). Qed.

Lemma advances_randbelow (n : nat) : advances (randbelow n).
Proof. intros w. split; cbn; [done | lia]. Qed.

Ltac advance :=
  repeat first
    [ apply advances_bind; [|intros ?]
    | apply advances_ret
    | apply advances_raise
    | apply advances_time_time
    | apply advances_alloc
    | apply advances_getattr
    | apply advances_setattr
    | apply advances_randbelow
    | (intros ?; split; cbn; [done | lia]) ].

Lemma advances_Clipboard_init (n : string) : advances (Clipboard_init n).
Proof. unfold Clipboard_init. advance. Qed.

Lemma advances_Clipboard_get (self : loc) : advances (Clipboard_get self).
Proof. unfold Clipboard_get. advance. destruct (Qle_bool _ _); advance. Qed.

Lemma advances_Clipboard_set (self : loc) (v : string) : advances (Clipboard_set self v).
Proof. unfold Clipboard_set. advance. Qed.

Lemma advances_get_clipboard (n : string) : advances (ClipsController.get_clipboard n).
Proof.
  unfold ClipsController.get_clipboard. apply advances_bind; [advance|].
  intros [l|]; [advance|].
  apply advances_bind; [apply advances_Clipboard_init|]. intros l. advance.
Qed.

Lemma advances_get_text (n : string) : advances (ClipsController.get_text n).
Proof.
  unfold ClipsController.get_text.
  apply advances_bind; [apply advances_get_clipboard|]. intros l.
  apply advances_bind; [advance|]. intros _.
  apply advances_bind; [apply advances_Clipboard_get|]. intros s. advance.
Qed.

Lemma advances_set_text (req : Request) (n : string) :
  advances (ClipsController.set_text req n).
Proof.
  unfold ClipsController.set_text, request_header, decode.
  apply advances_bind; [destruct (headers req !! _); advance|]. intros ct.
  case_decide; [advance|].
  apply advances_bind; [destruct (utf8_valid _); advance|]. intros t.
  apply advances_bind; [apply advances_get_clipboard|]. intros l.
  apply advances_bind; [apply advances_Clipboard_set|]. intros _. advance.
Qed.

Lemma advances_sample_from {A} (pool : list A) (k : nat) : advances (sample_from pool k).
Proof.
  revert pool. induction k as [|k IH]; intros pool; cbn [sample_from]; [advance|].
  apply advances_bind; [advance|]. intros j.
  destruct (pool !! j); [|advance].
  apply advances_bind; [apply IH|]. intros rest. advance.
Qed.

Lemma advances_do_random : advances ClipsController.do_random.
Proof.
  unfold ClipsController.do_random, random_sample.
  apply advances_bind; [advance|]. intros wl.
  apply advances_bind; [|intros words; advance].
  case_decide; [apply advances_sample_from | advance].
Qed.

Lemma advances_do_text (req : Request) (n : string) :
  advances (ClipsController.do_text req n).
Proof.
  unfold ClipsController.do_text. repeat case_decide.
  - apply advances_get_text.
  - apply advances_set_text.
  - apply advances_raise.
Qed.

Lemma advances_default (req : Request) (segs : list string) :
  advances (ClipsController.default req segs).
Proof.
  unfold ClipsController.default. repeat case_decide.
  - apply advances_ret.
  - apply advances_do_random.
  - apply advances_ret.
  - apply advances_do_text.
  - apply advances_raise.
Qed.

Lemma run_op_later (o : op) (w : World) : later w (run_op o w).
Proof.
  destruct o as [n|n|req n|req segs]; cbn.
  - apply advances_get_clipboard.
  - apply advances_get_text.
  - apply advances_set_text.
  - apply advances_default.
Qed.

Lemma run_ops_later (ops : list op) (w : World) : later w (run_ops ops w).
Proof.
  revert w. induction ops as [|o ops IH]; intros w; cbn; [apply later_refl|].
  eapply later_trans; [apply run_op_later | apply IH].
Qed.

(** * Reads keep what was written *)



Lemma run_access_live (self : loc) (w : World) (a : access) (c : Clipboard) :
  heap w !! self = Some c ->
  heap (run_access self w a) !! self =
    Some match a with
         | CallGet => after_get c (now w) (clock w (S (ticks w)))
         | CallSet v => after_set c v (now w)
         end.
Proof.
  intros Hc. destruct a as [|v]; cbn.
  - rewrite (Clipboard_get_run _ _ _ Hc). cbn. by rewrite lookup_insert_eq.
  - rewrite (Clipboard_set_run _ _ _ _ Hc). cbn. by rewrite lookup_insert_eq.
Qed.

(** * Letter case *)




(** * Overlapping calls of [get_clipboard] *)

(** A thread left alone runs [get_clipboard]. *)
Lemma run_alone_get_clipboard (n : string) (w : World) :
  run_alone (Called n) w =
    (l ← ClipsController.get_clipboard n; mret (Returned l)) w.
Proof.
  destruct (clipboards w !! n) as [l|] eqn:Hn;
    repeat (cbv [run_alone step mbind M_bind mret M_ret dict_get dict_setitem
                 ClipsController.get_clipboard];
            rewrite ?Hn, ?Clipboard_init_run);
    reflexivity.
Qed.

(** Three steps of a thread that has run nothing yet are one whole call. *)
Lemma three_steps (w w' : World) (pool : list frame) (i : nat) (n : string) (l : loc) :
  pool !! i = Some (Called n) ->
  ClipsController.get_clipboard n w = (w', Return l) ->
  foldl schedule_step (w, pool) [i; i; i] = (w', <[i := Returned l]> pool).
Proof.
  intros Hi Hg. pose proof (lookup_lt_Some _ _ _ Hi) as Hlen.
  assert (Hins : forall f f' (p : list frame), p = <[i := f]> pool ->
            <[i := f']> p !! i = Some f' /\ <[i := f']> p = <[i := f']> pool).
  { intros f f' p ->. split.
    - apply list_lookup_insert_eq. by rewrite length_insert.
    - apply list_insert_insert_eq. }
  destruct (clipboards w !! n) as [l0|] eqn:Hn.
  - rewrite (get_clipboard_hit _ _ _ Hn) in Hg. injection Hg as <- <-.
    cbn [foldl]. unfold schedule_step at 3. cbn [fst snd]. rewrite Hi.
    cbv [step mbind M_bind mret M_ret dict_get]. rewrite Hn.
    unfold schedule_step at 2. cbn [fst snd].
    rewrite list_lookup_insert_eq by done.
    cbv [step mret M_ret]. rewrite list_insert_insert_eq.
    unfold schedule_step. cbn [fst snd].
    rewrite list_lookup_insert_eq by done.
    cbv [step mret M_ret]. by rewrite list_insert_insert_eq.
  - rewrite (get_clipboard_miss _ _ Hn) in Hg. injection Hg as <- <-.
    cbn [foldl]. unfold schedule_step at 3. cbn [fst snd]. rewrite Hi.
    cbv [step mbind M_bind mret M_ret dict_get]. rewrite Hn.
    unfold schedule_step at 2. cbn [fst snd].
    rewrite list_lookup_insert_eq by done.
    cbv [step mbind M_bind mret M_ret]. rewrite Clipboard_init_run.
    rewrite list_insert_insert_eq.
    unfold schedule_step. cbn [fst snd].
    rewrite list_lookup_insert_eq by done.
    cbv [step mbind M_bind mret M_ret dict_setitem].
    by rewrite list_insert_insert_eq.
Qed.

Lemma serial_S (k : nat) : serial (S k) = serial k ++ [k; k; k].
Proof. unfold serial. rewrite seq_S, flat_map_app. cbn. done. Qed.

Lemma serial_run (w w' : World) (n : string) (l : loc) (k : nat) (rest : list frame) :
  ClipsController.get_clipboard n w = (w', Return l) ->
  interleave (serial (S k)) w (replicate (S k) (Called n) ++ rest)
    = (w', replicate (S k) (Returned l) ++ rest).
Proof.
  intros Hg. revert rest. induction k as [|k IH]; intros rest.
  - unfold interleave. cbn [serial seq flat_map app replicate].
    by rewrite (three_steps w w' (Called n :: rest) 0 n l eq_refl Hg).
  - rewrite serial_S. unfold interleave in *. rewrite foldl_app.
    rewrite (replicate_S_end (S k)), <- app_assoc. cbn [app].
    rewrite IH.
    assert (Hl : clipboards w' !! n = Some l).
    { destruct (get_clipboard_total w n) as (w1 & l1 & Hg1 & Hl1). congruence. }
    rewrite (three_steps w' w' _ (S k) n l).
    + f_equal. rewrite (replicate_S_end (S k)), <- app_assoc. cbn [app].
      pose proof (insert_app_r (replicate (S k) (Returned l))
                    (Called n :: rest) 0 (Returned l)) as Hins.
      rewrite length_replicate, Nat.add_0_r in Hins. exact Hins.
    + pose proof (list_lookup_middle (replicate (S k) (Returned l)) rest
                    (Called n) (S k)) as Hmid.
      apply Hmid. by rewrite length_replicate.
    + by apply get_clipboard_hit.
Qed.

(** * The generated name *)

Lemma count_LF_app (a b : string) : count_LF (a +:+ b) = (count_LF a + count_LF b)%nat.
Proof. induction a as [|c a IH]; simpl; [done|]. rewrite IH. lia. Qed.













(** * The claims *)




(** ** Runs of accesses *)



(** C4.  No sequence of store operations ([get_clipboard], [get_text],
    [set_text], or whole requests) removes or re-points a dict entry: a
    name in the dict stays mapped to the same object, and the number of
    entries never goes down.  [get_clipboard] returns the entry of the
    name when there is one and changes nothing; otherwise it enters
    exactly one new object, with the empty text, under the name. *)
Theorem registry_only_grows (ops : list op) (w : World) :
  (forall (n : string) (l : loc),
      clipboards w !! n = Some l -> clipboards (run_ops ops w) !! n = Some l) /\
  (size (clipboards w) <= size (clipboards (run_ops ops w)))%nat /\
  (forall n : string,
      (exists l : loc,
          clipboards w !! n = Some l /\
          ClipsController.get_clipboard n w = (w, Return l)) \/
      (exists l : loc,
          clipboards w !! n = None /\ heap w !! l = None /\
          ClipsController.get_clipboard n w = (created n w, Return l) /\
          clipboards (created n w) = <[n := l]> (clipboards w) /\
          heap (created n w)
            = <[l := {| name := n; text := ""; timestamp := now w |}]> (heap w) /\
          size (clipboards (created n w)) = S (size (clipboards w)))).
Proof.
  pose proof (run_ops_subseteq ops w) as Hsub.
  split; [|split].
  - intros n l Hl. by eapply lookup_weaken.
  - by apply map_subseteq_size.
  - intros n. destruct (clipboards w !! n) as [l|] eqn:Hn.
    + left. exists l. split; [done|]. by apply get_clipboard_hit.
    + right. exists (fresh (dom (heap w))).
      split; [done|]. split; [apply fresh_loc_unused|].
      split; [by apply get_clipboard_miss|].
      split; [done|]. split; [done|].
      unfold created; cbn. by apply map_size_insert_None.
Qed.




(** C7.  For a name that is not in the dict, [get_clipboard] makes a new
    object with this name, the empty text and the current clock reading
    as timestamp, and enters it under the name.  A read and an accepted
    write of such a name are this creation followed by the read or write
    of the entry, and the read returns the empty text. *)
Theorem first_access_creates_empty_clipboard (w : World) (n : string) :
  clipboards w !! n = None ->
  let l := fresh (dom (heap w)) in
  heap w !! l = None /\
  ClipsController.get_clipboard n w = (created n w, Return l) /\
  clipboards (created n w) !! n = Some l /\
  heap (created n w) !! l = Some {| name := n; text := ""; timestamp := now w |} /\
  ClipsController.get_text n w = ClipsController.get_text n (created n w) /\
  (forall req : Request,
      headers req !! "Content-Type" = Some "text/plain" ->
      utf8_valid (body req) = true ->
      ClipsController.set_text req n w
        = ClipsController.set_text req n (created n w)) /\
  exists w' : World, ClipsController.get_text n w = (w', Return (Text "")).
Proof.
  intros Hn l.
  pose proof (get_clipboard_miss _ _ Hn) as Hg.
  destruct (created_lookup w n) as [Hd Hh].
  pose proof (get_clipboard_hit _ _ _ Hd) as Hg'.
  split; [apply fresh_loc_unused|].
  split; [done|]. split; [done|]. split; [done|].
  split; [|split].
  - rewrite (get_text_run _ _ _ _ _ Hg Hh), (get_text_run _ _ _ _ _ Hg' Hh). done.
  - intros req Hct Hv.
    rewrite (set_text_run _ _ _ _ _ _ Hct Hv Hg Hh),
            (set_text_run _ _ _ _ _ _ Hct Hv Hg' Hh). done.
  - rewrite (get_text_run _ _ _ _ _ Hg Hh). eexists. f_equal. f_equal. f_equal.
    cbn. by destruct (Qle_bool _ _).
Qed.

Lemma first_access_creates_empty_clipboard_witness :
  ClipsController.get_clipboard "neverused" coarse_world
    = (created "neverused" coarse_world, Return 1%positive) /\
  exists w' : World,
    ClipsController.get_text "neverused" coarse_world = (w', Return (Text "")).
Proof.
  destruct (first_access_creates_empty_clipboard coarse_world "neverused")
    as (_ & Hg & _ & _ & _ & _ & Hr).
  - vm_compute. reflexivity.
  - split; [exact Hg | exact Hr].
Defined.



(** C9, as stated, fails: when the two lookups both come before the first
    insertion, each call makes its own object and returns it. *)
Lemma racing_creations_duplicate : ~ creation_is_atomic.
Proof.
  intros H.
  destruct (H fine_world (fst (interleave racing fine_world [Called "a"; Called "a"]))
              "a" racing 1%positive 2%positive) as [Heq _].
  - vm_compute. reflexivity.
  - vm_compute. reflexivity.
  - discriminate Heq.
Qed.

(** C9, amended.  When the calls of [get_clipboard] for one name run one
    after the other, however many they are, every call returns the same
    object, which is the entry of the name afterwards; and when the name
    was not in the dict, that object is the only one made. *)
Theorem serial_calls_share_one_clipboard (w : World) (n : string) (k : nat) :
  (0 < k)%nat ->
  exists (w' : World) (l : loc),
    interleave (serial k) w (replicate k (Called n))
      = (w', replicate k (Returned l)) /\
    ClipsController.get_clipboard n w = (w', Return l) /\
    clipboards w' !! n = Some l /\
    (clipboards w !! n = None ->
     heap w !! l = None /\
     heap w' = <[l := {| name := n; text := ""; timestamp := now w |}]> (heap w) /\
     size (heap w') = S (size (heap w))).
Proof.
  intros Hk. destruct k as [|k]; [lia|].
  destruct (get_clipboard_total w n) as (w' & l & Hg & Hl).
  exists w', l. split; [|split; [done|split; [done|]]].
  - pose proof (serial_run w w' n l k [] Hg) as H.
    by rewrite !app_nil_r in H.
  - intros Hn. rewrite (get_clipboard_miss _ _ Hn) in Hg. injection Hg as <- <-.
    pose proof (fresh_loc_unused w) as Hf.
    split; [done|]. split; [done|].
    unfold created; cbn. by apply map_size_insert_None.
Qed.

Lemma serial_calls_share_one_clipboard_witness :
  exists (w' : World) (l : loc),
    interleave (serial 2) fine_world (replicate 2 (Called "a"))
      = (w', replicate 2 (Returned l)) /\
    ClipsController.get_clipboard "a" fine_world = (w', Return l) /\
    clipboards w' !! "a" = Some l /\
    (clipboards fine_world !! "a" = None ->
     heap fine_world !! l = None /\
     heap w' = <[l := {| name := "a"; text := ""; timestamp := now fine_world |}]>
                 (heap fine_world) /\
     size (heap w') = S (size (heap fine_world))).
Proof.
  apply (serial_calls_share_one_clipboard fine_world "a" 2). lia.
Defined.

(** C10.  In [set_text] the test of the content type and the decoding of
    the body come before the call of [get_clipboard]: a write with a
    missing or wrong content type, or with a body that is not UTF-8,
    raises and leaves the whole world as it was.  No entry is made for a
    name that had none and no object changes. *)
Theorem rejected_write_leaves_registry_unchanged
    (w : World) (req : Request) (n : string) :
  headers req !! "Content-Type" <> Some "text/plain" \/
  utf8_valid (body req) = false ->
  (exists e : exn, ClipsController.set_text req n w = (w, Raise e)) /\
  (forall ct : string,
      headers req !! "Content-Type" = Some ct -> ct <> "text/plain" ->
      ClipsController.set_text req n w = (w, Raise (HTTPError 400))) /\
  (headers req !! "Content-Type" = Some "text/plain" ->
   ClipsController.set_text req n w = (w, Raise UnicodeDecodeError)) /\
  clipboards (fst (ClipsController.set_text req n w)) = clipboards w /\
  heap (fst (ClipsController.set_text req n w)) = heap w /\
  (clipboards w !! n = None ->
   clipboards (fst (ClipsController.set_text req n w)) !! n = None).
Proof.
  intros H. pose proof (set_text_rejected w req n H) as Hr.
  split; [eauto|]. split; [|split].
  - intros ct Hct Hne. rewrite Hr, Hct. by rewrite decide_False.
  - intros Hct. rewrite Hr, Hct. by rewrite decide_True.
  - rewrite Hr. done.
Qed.

Lemma rejected_write_leaves_registry_unchanged_witness :
  ClipsController.set_text (plain_text_post [xff]) "fresh" coarse_written
    = (coarse_written, Raise UnicodeDecodeError) /\
  clipboards (fst (ClipsController.set_text (plain_text_post [xff]) "fresh"
                     coarse_written)) !! "fresh" = None.
Proof.
  destruct (rejected_write_leaves_registry_unchanged coarse_written
              (plain_text_post [xff]) "fresh")
    as (_ & _ & Hu & _ & _ & Hn).
  - right. vm_compute. reflexivity.
  - split; [apply Hu | apply Hn]; vm_compute; reflexivity.
Defined.

(** * The scenarios of the specification *)

(** [get_clipboard] compares names as they are: the lower-casing is done
    by [default], its only caller chain. *)
Example get_clipboard_is_exact :
  snd (ClipsController.get_clipboard "FooBar"
         (fst (ClipsController.get_clipboard "foobar" fine_world)))
    = Return 2%positive.
Proof. vm_compute. reflexivity. Qed.

Example racing_run :
  let (w', pool) := interleave racing fine_world [Called "a"; Called "a"] in
  pool = [Returned 1%positive; Returned 2%positive] /\
  clipboards w' !! "a" = Some 2%positive /\
  size (heap w') = 2%nat.
Proof. vm_compute. auto. Qed.

Example scenario_write_then_read :
  let w1 := fst (ClipsController.default (plain_text_post hello) ["demo"; "text"] fine_world) in
  snd (ClipsController.default (plain_text_post hello) ["demo"; "text"] fine_world)
    = Return NoBody /\
  snd (ClipsController.default get_request ["demo"; "text"] w1)
    = Return (Text "hello").
Proof. vm_compute. auto. Qed.

Example scenario_expired_after_901_seconds :
  let w1 := fst (ClipsController.default (plain_text_post hello) ["demo"; "text"] jumping_world) in
  snd (ClipsController.default get_request ["demo"; "text"] w1) = Return (Text "").
Proof. vm_compute. reflexivity. Qed.

Example scenario_never_used :
  snd (ClipsController.default get_request ["neverused"; "text"] fine_world)
    = Return (Text "").
Proof. vm_compute. reflexivity. Qed.

Example scenario_three_segments :
  ClipsController.default get_request ["a"; "b"; "c"] fine_world
    = (fine_world, Raise (HTTPError 404)).
Proof. reflexivity. Qed.

Example scenario_other_method :
  ClipsController.default (mkRequest "PUT" ∅ []) ["demo"; "text"] fine_written
    = (fine_written, Raise (HTTPError 405)).
Proof. reflexivity. Qed.

Example scenario_json_is_rejected :
  let req := mkRequest "POST" {[ "Content-Type" := "application/json" ]} [x78] in
  let w1 := fst (ClipsController.default req ["demo"; "text"] fine_written) in
  snd (ClipsController.default req ["demo"; "text"] fine_written)
    = Raise (HTTPError 400) /\
  snd (ClipsController.default get_request ["demo"; "text"] w1)
    = Return (Text "hello").
Proof. vm_compute. auto. Qed.

(** A [POST] that carries no [Content-Type] at all ends in a [KeyError]. *)
Example scenario_no_content_type :
  ClipsController.default (mkRequest "POST" ∅ hello) ["demo"; "text"] fine_written
    = (fine_written, Raise (KeyError "Content-Type")).
Proof. reflexivity. Qed.

Example scenario_case_insensitive :
  let w1 := fst (ClipsController.default (plain_text_post hello) ["FooBar"; "text"] fine_world) in
  snd (ClipsController.default get_request ["foobar"; "TEXT"] w1)
    = Return (Text "hello").
Proof. vm_compute. reflexivity. Qed.

Example scenario_random :
  snd (ClipsController.default get_request ["Random"] fine_world)
    = snd (ClipsController.do_random fine_world).
Proof. reflexivity. Qed.

(** * Operations as sequences of steps *)

Lemma set_draws_set_draws (d d' : nat) (w : World) :
  set_draws d (set_draws d' w) = set_draws d w.
Proof. reflexivity. Qed.

Lemma set_draws_same (w : World) : set_draws (draws w) w = w.
Proof. by destruct w. Qed.

(** Sampling moves the generator on, by one draw for every word it
    delivers, and changes nothing else. *)
Lemma sample_from_world {A} (pool : list A) (k : nat) (w : World) :
  exists d : nat,
    (draws w <= d <= draws w + k)%nat /\
    fst (sample_from pool k w) = set_draws d w /\
    (forall res, snd (sample_from pool k w) = Return res -> d = (draws w + k)%nat).
Proof.
  revert pool w. induction k as [|k IH]; intros pool w.
  - exists (draws w). cbn. rewrite set_draws_same.
    split; [lia|]. split; [done|]. intros; lia.
  - cbn [sample_from]. cbv [mbind M_bind randbelow mret M_ret raise].
    destruct (pool !! _) as [x|].
    + destruct (IH (delete (rng w (draws w) `mod` length pool) pool)
                  (set_draws (S (draws w)) w)) as (d & Hd & Hw & Hres).
      destruct (sample_from _ k _) as [w2 [r|e]]; cbn in *.
      * exists d. rewrite Hw. split; [lia|]. split; [done|]. intros ? _.
        specialize (Hres r eq_refl). lia.
      * exists d. rewrite Hw. split; [lia|]. split; [done|]. intros ? [=].
    + exists (S (draws w)). cbn. split; [lia|]. split; [done|]. intros ? [=].
Qed.

Lemma get_clipboard_steps (w : World) (n : string) :
  rtc (basic n) w (fst (ClipsController.get_clipboard n w)).
Proof.
  destruct (clipboards w !! n) as [l|] eqn:Hn.
  - rewrite (get_clipboard_hit _ _ _ Hn). apply rtc_refl.
  - rewrite (get_clipboard_miss _ _ Hn). apply rtc_once.
    apply basic_create; [done|reflexivity..].
Qed.

Lemma get_text_steps (w : World) (n : string) :
  rtc (basic n) w (fst (ClipsController.get_text n w)).
Proof.
  destruct (clipboards w !! n) as [l|] eqn:Hn.
  - pose proof (get_clipboard_hit _ _ _ Hn) as Hg.
    destruct (heap w !! l) as [c|] eqn:Hc.
    + rewrite (get_text_run _ _ _ _ _ Hg Hc). apply rtc_once.
      eapply (basic_update n _ _ l c (after_get c (now w) (clock w (S (ticks w))))); cbn; eauto;
          first [ by (eexists; split; [|reflexivity]; cbn; lia)
                | (split; cbn; [done|lia]) ].
    + unfold ClipsController.get_text.
      unfold mbind at 1, M_bind at 1. rewrite Hg.
      unfold mbind at 1, M_bind at 1, set_response_header at 1.
      unfold mbind at 1, M_bind at 1.
      rewrite Clipboard_get_dangling by done. apply rtc_once.
      apply basic_idle; cbn; first [done | by split].
  - pose proof (get_clipboard_miss _ _ Hn) as Hg.
    destruct (created_lookup w n) as [Hd Hh].
    rewrite (get_text_run _ _ _ _ _ Hg Hh).
    eapply rtc_l; [apply (basic_create n w (created n w)); [done|reflexivity..]|].
    apply rtc_once.
    eapply (basic_update n _ _ _ _ (after_get _ (now (created n w)) (clock (created n w) (S (ticks (created n w)))))); cbn -[created]; eauto;
          first [ by (eexists; split; [|reflexivity]; cbn; lia)
                | (split; cbn; [done|lia]) ].
Qed.

Lemma set_text_steps (w : World) (req : Request) (n : string) :
  rtc (basic n) w (fst (ClipsController.set_text req n w)).
Proof.
  destruct (decide (headers req !! "Content-Type" = Some "text/plain")) as [Hct|Hct];
    [destruct (utf8_valid (body req)) eqn:Hv|].
  - destruct (clipboards w !! n) as [l|] eqn:Hn.
    + pose proof (get_clipboard_hit _ _ _ Hn) as Hg.
      destruct (heap w !! l) as [c|] eqn:Hc.
      * rewrite (set_text_run _ _ _ _ _ _ Hct Hv Hg Hc). apply rtc_once.
        eapply (basic_update n _ _ l c (after_set c (String.string_of_list_byte (body req)) (now w))); cbn; eauto;
          first [ by (eexists; split; [|reflexivity]; cbn; lia)
                | (split; cbn; [done|lia]) ].
      * unfold ClipsController.set_text, request_header, decode.
        rewrite Hct, Hv.
        unfold mbind at 1, M_bind at 1, mret at 1, M_ret at 1.
        rewrite decide_False by (intros H; by apply H).
        unfold mbind at 1, M_bind at 1, mret at 1, M_ret at 1.
        unfold mbind at 1, M_bind at 1. rewrite Hg.
        unfold mbind at 1, M_bind at 1.
        rewrite Clipboard_set_dangling by done. apply rtc_refl.
    + pose proof (get_clipboard_miss _ _ Hn) as Hg.
      destruct (created_lookup w n) as [Hd Hh].
      rewrite (set_text_run _ _ _ _ _ _ Hct Hv Hg Hh).
      eapply rtc_l; [apply (basic_create n w (created n w)); [done|reflexivity..]|].
      apply rtc_once.
      eapply (basic_update n _ _ _ _ (after_set _ (String.string_of_list_byte (body req)) (now (created n w)))); cbn -[created]; eauto;
          first [ by (eexists; split; [|reflexivity]; cbn; lia)
                | (split; cbn; [done|lia]) ].
  - rewrite set_text_rejected by auto. apply rtc_refl.
  - rewrite set_text_rejected by auto. apply rtc_refl.
Qed.

Lemma do_random_world (w : World) :
  exists d : nat,
    (draws w <= d)%nat /\ fst (ClipsController.do_random w) = set_draws d w.
Proof.
  cbv [ClipsController.do_random mbind M_bind read_global_wordlist
       random_sample raise].
  case_decide.
  - destruct (sample_from_world (wordlist w) NUM_RANDOM_WORDS w) as (d & Hd & Hw & _).
    exists d. split; [lia|].
    destruct (sample_from _ _ _) as [w2 [r|e]]; exact Hw.
  - exists (draws w). by rewrite set_draws_same.
Qed.

Lemma default_steps (w : World) (req : Request) (segs : list string) :
  rtc (basic (lower (nth 0 segs ""))) w (fst (ClipsController.default req segs w)).
Proof.
  unfold ClipsController.default. repeat case_decide; try apply rtc_refl.
  - destruct (do_random_world w) as (d & Hd & ->). apply rtc_once.
    apply basic_idle; cbn; first [done | by split].
  - unfold ClipsController.do_text. repeat case_decide.
    + apply get_text_steps.
    + apply set_text_steps.
    + apply rtc_refl.
Qed.

Lemma run_op_steps (o : op) (w : World) :
  exists m : string, (forall n, n <> m -> ~ touches o n) /\ rtc (basic m) w (run_op o w).
Proof.
  destruct o as [n|n|req n|req segs]; cbn.
  - exists n. split; [congruence | apply get_clipboard_steps].
  - exists n. split; [congruence | apply get_text_steps].
  - exists n. split; [congruence | apply set_text_steps].
  - exists (lower (nth 0 segs "")). split; [|apply default_steps].
    intros n Hne [_ Hn]. congruence.
Qed.

Lemma steps_reach (m : string) (w w' : World) : rtc (basic m) w w' -> reach w w'.
Proof.
  induction 1 as [|a b c Hab _ IH]; [apply rtc_refl|].
  eapply rtc_l; [by exists m | exact IH].
Qed.

Lemma run_ops_reach (ops : list op) (w : World) : reach w (run_ops ops w).
Proof.
  revert w. induction ops as [|o ops IH]; intros w; cbn; [apply rtc_refl|].
  destruct (run_op_steps o w) as (m & _ & Hs).
  eapply rtc_trans; [by eapply steps_reach | apply IH].
Qed.

Lemma run_op_steps_subject (o : op) (w : World) :
  rtc (basic (subject o)) w (run_op o w).
Proof.
  destruct o as [n|n|req n|req segs]; cbn.
  - apply get_clipboard_steps.
  - apply get_text_steps.
  - apply set_text_steps.
  - apply default_steps.
Qed.

(** * Invariants of the steps *)

Lemma basic_wf (m : string) (w w' : World) : basic m w w' -> wf w -> wf w'.
Proof.
  intros [Hh Hd _ _|Hm Hh Hd _ _ _|l c c' Hm Hc Hn _ Hh Hd _ _] Hwf.
  - by apply (wf_idle w w').
  - apply (wf_idle (created m w) w'); [by split|]. by apply wf_created.
  - by eapply wf_update.
Qed.

Lemma basic_tight (m : string) (w w' : World) : basic m w w' -> tight w -> tight w'.
Proof.
  intros Hb [Hwf Hback]. split; [by eapply basic_wf|].
  destruct Hb as [Hh Hd _ _|Hm Hh Hd _ _ _|l c c' Hm Hc Hn _ Hh Hd _ _];
    intros l0 c0; rewrite Hh, Hd.
  - apply Hback.
  - destruct (decide (fresh (dom (heap w)) = l0)) as [<-|Hne].
    + rewrite lookup_insert_eq. intros [= <-]. cbn. by rewrite lookup_insert_eq.
    + rewrite lookup_insert_ne by done. intros Hc0.
      pose proof (Hback _ _ Hc0) as Hk.
      rewrite lookup_insert_ne; [done|]. intros E. congruence.
  - destruct (decide (l = l0)) as [<-|Hne].
    + rewrite lookup_insert_eq. intros Hc0. injection Hc0 as Hc0. subst c0.
      rewrite Hn. by apply Hback.
    + rewrite lookup_insert_ne by done. apply Hback.
Qed.

Lemma basic_stamped (m : string) (w w' : World) :
  basic m w w' -> stamped w -> stamped w'.
Proof.
  intros Hb Hs l0 c0.
  destruct Hb as [Hh Hd _ [Hclk Htk]|Hm Hh Hd _ Hclk Htk
                 |l c c' Hm Hc Hn (k & Hk & Hts) Hh Hd _ [Hclk Htk]];
    rewrite Hh, Hclk.
  - intros Hc0. destruct (Hs _ _ Hc0) as (k & Hk & ->). exists k. split; [lia|done].
  - destruct (decide (fresh (dom (heap w)) = l0)) as [<-|Hne].
    + rewrite lookup_insert_eq. intros [= <-]. exists (ticks w). split; [lia|done].
    + rewrite lookup_insert_ne by done. intros Hc0.
      destruct (Hs _ _ Hc0) as (k & Hk & ->). exists k. split; [lia|done].
  - destruct (decide (l = l0)) as [<-|Hne].
    + rewrite lookup_insert_eq. intros [= <-]. exists k. split; [lia|done].
    + rewrite lookup_insert_ne by done. intros Hc0.
      destruct (Hs _ _ Hc0) as (k' & Hk' & ->). exists k'. split; [lia|done].
Qed.

Lemma basic_balanced (m : string) (w w' : World) :
  basic m w w' ->
  size (heap w) = size (clipboards w) -> size (heap w') = size (clipboards w').
Proof.
  intros [Hh Hd _ _|Hm Hh Hd _ _ _|l c c' Hm Hc Hn _ Hh Hd _ _] Hsz;
    rewrite Hh, Hd.
  - done.
  - rewrite !map_size_insert_None; auto using fresh_loc_unused.
  - rewrite map_size_insert_Some; eauto.
Qed.

Lemma basic_dict (m : string) (w w' : World) :
  basic m w w' ->
  clipboards w' = clipboards w \/
  (clipboards w !! m = None /\ heap w !! fresh (dom (heap w)) = None /\
   clipboards w' = <[m := fresh (dom (heap w))]> (clipboards w)).
Proof.
  intros [Hh Hd _ _|Hm Hh Hd _ _ _|l c c' Hm Hc Hn _ Hh Hd _ _]; auto.
  right. auto using fresh_loc_unused.
Qed.

Lemma steps_dict (m : string) (w w' : World) :
  rtc (basic m) w w' ->
  clipboards w' = clipboards w \/
  (clipboards w !! m = None /\
   exists l : loc, clipboards w' = <[m := l]> (clipboards w)).
Proof.
  induction 1 as [|a b c Hab _ IH]; [by left|].
  pose proof (basic_dict _ _ _ Hab) as [Hd|(Hm & Hf & Hd)].
  - destruct IH as [IH|(Hm & l & IH)].
    + left. congruence.
    + right. rewrite Hd in Hm, IH. eauto.
  - destruct IH as [IH|(Hm' & _)].
    + right. split; [done|]. exists (fresh (dom (heap a))). congruence.
    + rewrite Hd, lookup_insert_eq in Hm'. done.
Qed.

Lemma reach_invariant (I : World -> Prop) (w w' : World) :
  (forall m a b, basic m a b -> I a -> I b) -> reach w w' -> I w -> I w'.
Proof.
  intros Hstep Hr. induction Hr as [|a b c [m Hab] _ IH]; [done|].
  intros Ha. apply IH. by eapply Hstep.
Qed.

Lemma lower_char_idem (c : ascii) : lower_char (lower_char c) = lower_char c.
Proof. destruct c as [[] [] [] [] [] [] [] []]; reflexivity. Qed.

Lemma lower_idem (s : string) : lower (lower s) = lower s.
Proof. induction s as [|c s IH]; cbn; [done|]. by rewrite lower_char_idem, IH. Qed.

Lemma steps_normalized (m : string) (w w' : World) :
  rtc (basic m) w w' -> lower m = m -> normalized w -> normalized w'.
Proof.
  intros Hs Hm Hn n l. destruct (steps_dict _ _ _ Hs) as [->|(_ & l' & ->)].
  - apply Hn.
  - destruct (decide (m = n)) as [<-|Hne]; [done|].
    rewrite lookup_insert_ne by done. apply Hn.
Qed.

(** * Further properties of the code *)

(** X1.  A request reaches the store only on the path [<name>/text] with
    the method [GET] or [POST].  Every other request, whatever its path,
    method, headers and body, leaves every object, the dict, the clock
    and the response headers as they were; at most the random generator
    has moved on. *)
Theorem only_text_requests_touch_the_store
    (w : World) (req : Request) (segs : list string) :
  ~ (length segs = 2%nat /\ lower (nth 1 segs "") = "text" /\
     (method req = "GET" \/ method req = "POST")) ->
  exists d : nat,
    (draws w <= d)%nat /\
    fst (ClipsController.default req segs w) = set_draws d w.
Proof.
  intros Hnot.
  assert (Hsame : exists d, (draws w <= d)%nat /\ w = set_draws d w).
  { exists (draws w). by rewrite set_draws_same. }
  unfold ClipsController.default. repeat case_decide; try exact Hsame.
  - apply do_random_world.
  - unfold ClipsController.do_text. repeat case_decide; try exact Hsame;
      exfalso; apply Hnot; tauto.
Qed.

Lemma only_text_requests_touch_the_store_witness :
  exists d : nat,
    (draws fine_written <= d)%nat /\
    fst (ClipsController.default (mkRequest "DELETE" ∅ []) ["demo"; "text"] fine_written)
      = set_draws d fine_written.
Proof.
  apply (only_text_requests_touch_the_store fine_written
           (mkRequest "DELETE" ∅ []) ["demo"; "text"]).
  cbn. intros (_ & _ & [H|H]); discriminate H.
Defined.

(** X2.  In a well-formed world [set_text] returns normally exactly when
    the request carries the header [Content-Type: text/plain] and a body
    that is valid UTF-8; it then returns [None], and the clipboard of the
    name holds the decoded body and the clock reading of the write. *)
Theorem set_text_accepts_exactly_plain_utf8
    (w : World) (req : Request) (n : string) :
  wf w ->
  ((exists w' r, ClipsController.set_text req n w = (w', Return r)) <->
   (headers req !! "Content-Type" = Some "text/plain" /\
    utf8_valid (body req) = true)) /\
  (forall w' r,
      ClipsController.set_text req n w = (w', Return r) ->
      r = NoBody /\
      exists l : loc,
        clipboards w' !! n = Some l /\
        heap w' !! l =
          Some {| name := n;
                  text := String.string_of_list_byte (body req);
                  timestamp := now (fst (ClipsController.get_clipboard n w)) |}).
Proof.
  intros Hwf.
  assert (Hok : headers req !! "Content-Type" = Some "text/plain" ->
                utf8_valid (body req) = true ->
                exists wg l c,
                  ClipsController.get_clipboard n w = (wg, Return l) /\
                  clipboards wg !! n = Some l /\ heap wg !! l = Some c /\
                  name c = n /\
                  ClipsController.set_text req n w =
                    (set_ticks (S (ticks wg))
                       (set_heap (<[l := after_set c
                                           (String.string_of_list_byte (body req))
                                           (now wg)]> (heap wg)) wg),
                     Return NoBody)).
  { intros Hct Hv.
    destruct (get_clipboard_total w n) as (wg & l & Hg & Hl).
    assert (Hwfg : wf wg).
    { pose proof (get_clipboard_acts_on w n) as (_ & H & _).
      rewrite Hg in H. by apply H. }
    destruct (Hwfg _ _ Hl) as (c & Hc & Hname).
    exists wg, l, c. repeat split; try done.
    by apply set_text_run. }
  assert (Hbad : ~ (headers req !! "Content-Type" = Some "text/plain" /\
                    utf8_valid (body req) = true) ->
                 forall w' r, ClipsController.set_text req n w <> (w', Return r)).
  { intros Hno w' r. rewrite set_text_rejected; [congruence|].
    destruct (decide (headers req !! "Content-Type" = Some "text/plain")); [|tauto].
    destruct (utf8_valid (body req)); tauto. }
  split; [split|].
  - intros (w' & r & Hs).
    destruct (decide (headers req !! "Content-Type" = Some "text/plain")) as [Hct|Hct];
      [destruct (utf8_valid (body req)) eqn:Hv; [done|]|];
      exfalso; eapply Hbad; try exact Hs; intros [? ?]; congruence.
  - intros [Hct Hv]. destruct (Hok Hct Hv) as (wg & l & c & _ & _ & _ & _ & Hs).
    rewrite Hs. eauto.
  - intros w' r Hs.
    destruct (decide (headers req !! "Content-Type" = Some "text/plain")) as [Hct|Hct];
      [destruct (utf8_valid (body req)) eqn:Hv|];
      [|exfalso; eapply Hbad; try exact Hs; intros [? ?]; congruence..].
    destruct (Hok Hct eq_refl) as (wg & l & c & Hg & Hl & Hc & Hname & Hs').
    rewrite Hs' in Hs. injection Hs as <- <-. split; [done|].
    exists l. rewrite Hg. cbn. split; [done|].
    rewrite lookup_insert_eq. unfold after_set. by rewrite Hname.
Qed.

Lemma set_text_accepts_exactly_plain_utf8_witness :
  exists w' r,
    ClipsController.set_text (plain_text_post hello) "demo" fine_world = (w', Return r).
Proof.
  apply (proj1 (set_text_accepts_exactly_plain_utf8 fine_world
                  (plain_text_post hello) "demo" (wf_boot _ _ _))).
  split; vm_compute; reflexivity.
Defined.

(** X3.  In a well-formed world [get_text] never raises, for any name,
    seen before or not: it returns a text, which is the empty text or the
    text the clipboard of the name held, and it has set the response
    header [Content-Type] to [text/plain]. *)
Theorem get_text_always_answers (w : World) (n : string) :
  wf w ->
  exists (w' : World) (s : string),
    ClipsController.get_text n w = (w', Return (Text s)) /\
    response_headers w' !! "Content-Type" = Some "text/plain" /\
    (s = "" \/
     exists (l : loc) (c : Clipboard),
       clipboards w !! n = Some l /\ heap w !! l = Some c /\ s = text c).
Proof.
  intros Hwf. destruct (clipboards w !! n) as [l|] eqn:Hn.
  - destruct (Hwf _ _ Hn) as (c & Hc & _).
    rewrite (get_text_run _ _ _ _ _ (get_clipboard_hit _ _ _ Hn) Hc).
    eexists _, _. split; [reflexivity|]. split; [cbn; by rewrite lookup_insert_eq|].
    cbn. destruct (Qle_bool _ _); [by left|]. right. by exists l, c.
  - destruct (created_lookup w n) as [Hd Hh].
    rewrite (get_text_run _ _ _ _ _ (get_clipboard_miss _ _ Hn) Hh).
    eexists _, _. split; [reflexivity|].
    split; [cbn; by rewrite lookup_insert_eq|].
    left. cbn. by destruct (Qle_bool _ _).
Qed.

Lemma get_text_always_answers_witness :
  exists (w' : World) (s : string),
    ClipsController.get_text "demo" fine_written = (w', Return (Text s)) /\
    response_headers w' !! "Content-Type" = Some "text/plain" /\
    (s = "" \/
     exists (l : loc) (c : Clipboard),
       clipboards fine_written !! "demo" = Some l /\
       heap fine_written !! l = Some c /\ s = text c).
Proof.
  apply (get_text_always_answers fine_written "demo").
  apply (run_ops_wf [Write (plain_text_post hello) "demo"]), wf_boot.
Defined.

Lemma gets_keep_or_clear (self : loc) (w : World) (c : Clipboard) (k : nat) :
  heap w !! self = Some c ->
  exists ck : Clipboard,
    heap (run_accesses self (replicate k CallGet) w) !! self = Some ck /\
    name ck = name c /\ (text ck = text c \/ text ck = "").
Proof.
  intros Hc. induction k as [|k (ck & Hck & Hn & Ht)].
  - exists c. auto.
  - rewrite replicate_S_end. unfold run_accesses in *. rewrite foldl_snoc.
    eexists. split; [by apply run_access_live|]. split; [done|].
    cbn. destruct (Qle_bool _ _); auto.
Qed.

(** X4.  Reading alone never brings content back.  After any number of
    [get] calls on a live clipboard, at any times, it holds the text it
    held at the start or the empty text, and once it holds the empty text
    it holds it after every further [get].  Its name never changes. *)
Theorem gets_never_restore_content
    (self : loc) (w : World) (c : Clipboard) (j k : nat) :
  heap w !! self = Some c ->
  (j <= k)%nat ->
  exists cj ck : Clipboard,
    heap (run_accesses self (replicate j CallGet) w) !! self = Some cj /\
    heap (run_accesses self (replicate k CallGet) w) !! self = Some ck /\
    name ck = name c /\
    (text ck = text c \/ text ck = "") /\
    (text cj = "" -> text ck = "").
Proof.
  intros Hc Hjk.
  destruct (gets_keep_or_clear self w c j Hc) as (cj & Hcj & Hnj & Htj).
  destruct (gets_keep_or_clear self w c k Hc) as (ck & Hck & Hnk & Htk).
  exists cj, ck. repeat split; try done.
  intros Hempty.
  destruct (gets_keep_or_clear self _ cj (k - j) Hcj) as (ck' & Hck' & _ & Ht').
  assert (Hsplit : run_accesses self (replicate (k - j) CallGet)
                     (run_accesses self (replicate j CallGet) w)
                   = run_accesses self (replicate k CallGet) w).
  { unfold run_accesses. rewrite <- foldl_app, <- replicate_add.
    do 2 f_equal. lia. }
  rewrite Hsplit, Hck in Hck'. injection Hck' as <-.
  destruct Ht' as [->| ->]; done.
Qed.

Lemma gets_never_restore_content_witness :
  exists cj ck : Clipboard,
    heap (run_accesses 1%positive (replicate 1 CallGet) jumping_written) !! 1%positive
      = Some cj /\
    heap (run_accesses 1%positive (replicate 3 CallGet) jumping_written) !! 1%positive
      = Some ck /\
    name ck = "demo" /\
    (text ck = "hello" \/ text ck = "") /\
    (text cj = "" -> text ck = "").
Proof.
  apply (gets_never_restore_content 1%positive jumping_written
           {| name := "demo"; text := "hello"; timestamp := 0 |} 1 3).
  - vm_compute. reflexivity.
  - lia.
Defined.

(** X5.  Operations on other names do not interfere: in a well-formed
    world, whatever sequence of operations is run that looks up names
    other than [n] only, the entry of [n] is the same object afterwards
    and its text and timestamp are untouched. *)
Theorem other_names_are_untouched
    (w : World) (ops : list op) (n : string) (l : loc) (c : Clipboard) :
  wf w ->
  Forall (fun o => ~ touches o n) ops ->
  clipboards w !! n = Some l ->
  heap w !! l = Some c ->
  clipboards (run_ops ops w) !! n = Some l /\
  heap (run_ops ops w) !! l = Some c.
Proof.
  intros Hwf Hops Hl Hc.
  destruct (run_ops_frame ops w n l Hwf Hops Hl) as [Hd Hh].
  split; [done | congruence].
Qed.

Lemma other_names_are_untouched_witness :
  clipboards (run_ops [Write (plain_text_post [x78]) "other"; Read "third"]
                fine_written) !! "demo" = Some 1%positive /\
  heap (run_ops [Write (plain_text_post [x78]) "other"; Read "third"]
          fine_written) !! 1%positive
    = Some {| name := "demo"; text := "hello"; timestamp := 1 |}.
Proof.
  apply (other_names_are_untouched fine_written
           [Write (plain_text_post [x78]) "other"; Read "third"] "demo").
  - apply (run_ops_wf [Write (plain_text_post hello) "demo"]), wf_boot.
  - repeat constructor; cbn; discriminate.
  - vm_compute. reflexivity.
  - vm_compute. reflexivity.
Defined.

(** X6.  An operation never adds more than one entry to the dict, and
    only under the name it is about and only when that name had no
    entry; so a sequence of operations adds at most as many entries as it
    has operations. *)
Theorem operation_adds_at_most_one_entry (w : World) :
  (forall o : op,
      clipboards (run_op o w) = clipboards w \/
      (clipboards w !! subject o = None /\
       exists l : loc,
         clipboards (run_op o w) = <[subject o := l]> (clipboards w))) /\
  (forall ops : list op,
      (size (clipboards (run_ops ops w)) <= size (clipboards w) + length ops)%nat).
Proof.
  split.
  - intros o. apply steps_dict, run_op_steps_subject.
  - intros ops. revert w. induction ops as [|o ops IH]; intros w; cbn; [lia|].
    specialize (IH (run_op o w)).
    destruct (steps_dict _ _ _ (run_op_steps_subject o w)) as [Hd|(Hm & l & Hd)];
      rewrite Hd in IH.
    + lia.
    + rewrite map_size_insert_None in IH by done. lia.
Qed.

(** X7.  In every world reached from the start by store operations the
    dict and the heap correspond one to one: every entry points to a
    live [Clipboard] whose [name] is the key, every [Clipboard] ever made
    is the entry of its name, and there are as many objects as entries.
    Run one after the other, the operations leave no clipboard behind
    that the dict does not know. *)
Theorem dict_and_heap_correspond
    (txt : string) (clk : nat -> Q) (r : nat -> nat) (ops : list op) :
  tight (run_ops ops (boot txt clk r)) /\
  size (heap (run_ops ops (boot txt clk r)))
    = size (clipboards (run_ops ops (boot txt clk r))).
Proof.
  pose proof (run_ops_reach ops (boot txt clk r)) as Hr. split.
  - apply (reach_invariant tight _ _ basic_tight Hr).
    split; [apply wf_boot|]. intros l c H. cbn in H. by rewrite lookup_empty in H.
  - apply (reach_invariant (fun w => size (heap w) = size (clipboards w))
             _ _ basic_balanced Hr).
    cbn. by rewrite !map_size_empty.
Qed.

(** X8.  Every timestamp stored in a clipboard is a reading that the
    clock has already given, so with a clock that does not run backwards
    no timestamp lies after the current time. *)
Theorem timestamps_are_past_readings
    (txt : string) (clk : nat -> Q) (r : nat -> nat) (ops : list op)
    (l : loc) (c : Clipboard) :
  heap (run_ops ops (boot txt clk r)) !! l = Some c ->
  (exists k : nat,
      (k < ticks (run_ops ops (boot txt clk r)))%nat /\ timestamp c = clk k) /\
  (monotone clk -> (timestamp c <= now (run_ops ops (boot txt clk r)))%Q).
Proof.
  intros Hc.
  pose proof (run_ops_reach ops (boot txt clk r)) as Hr.
  destruct (run_ops_later ops (boot txt clk r)) as [Hclk _]. cbn in Hclk.
  assert (Hs : stamped (run_ops ops (boot txt clk r))).
  { apply (reach_invariant stamped _ _ basic_stamped Hr).
    intros l0 c0 H. cbn in H. by rewrite lookup_empty in H. }
  destruct (Hs _ _ Hc) as (k & Hk & Hts). rewrite Hclk in Hts.
  split; [eauto|]. intros Hmono. unfold now. rewrite Hts, Hclk.
  apply Hmono. lia.
Qed.

Lemma timestamps_are_past_readings_witness :
  (exists k : nat, (k < ticks fine_written)%nat /\ 1%Q = fine_clock k) /\
  (monotone fine_clock -> (1 <= now fine_written)%Q).
Proof.
  apply (timestamps_are_past_readings three_words fine_clock id
           [Write (plain_text_post hello) "demo"] 1%positive
           {| name := "demo"; text := "hello"; timestamp := 1 |}).
  vm_compute. reflexivity.
Defined.

(** X9.  As long as the store is only used through requests, every key
    of the dict is in lower case: no request ever enters a name that has
    an upper-case letter. *)
Theorem request_keys_are_lower_case
    (txt : string) (clk : nat -> Q) (r : nat -> nat)
    (requests : list (Request * list string)) :
  normalized (run_ops (map (fun p => Serve p.1 p.2) requests) (boot txt clk r)).
Proof.
  assert (H : forall w, normalized w ->
            normalized (run_ops (map (fun p => Serve p.1 p.2) requests) w)).
  { induction requests as [|[req segs] rest IH]; intros w Hn; cbn; [done|].
    apply IH. eapply steps_normalized; [apply default_steps | apply lower_idem | done]. }
  apply H. intros n l Hl. cbn in Hl. by rewrite lookup_empty in Hl.
Qed.

(** * The word list and the generated name, continued *)

Lemma str_app_empty_r (s : string) : s +:+ "" = s.
Proof.
  induction s as [|c s IH]; [done|].
  change (String c s +:+ "") with (String c (s +:+ "")). by rewrite IH.
Qed.

Lemma str_app_snoc (a : string) (c : ascii) (b : string) :
  (a +:+ String c "") +:+ b = a +:+ String c b.
Proof.
  induction a as [|x a IH]; [done|].
  change ((String x a +:+ String c "") +:+ b)
    with (String x ((a +:+ String c "") +:+ b)).
  by rewrite IH.
Qed.

Lemma join_empty_cons (x : string) (items : list string) :
  join "" (x :: items) = x +:+ join "" items.
Proof.
  unfold join. destruct items as [|y items]; cbn.
  - by rewrite str_app_empty_r.
  - done.
Qed.

Lemma readlines_from_join (cur s : string) :
  join "" (readlines_from cur s) = cur +:+ s.
Proof.
  revert cur. induction s as [|c s IH]; intros cur; cbn [readlines_from].
  - case_decide as Hc; [by subst|].
    by rewrite join_empty_cons, !str_app_empty_r.
  - case_decide as Hc.
    + subst c. rewrite join_empty_cons, IH. cbn. apply str_app_snoc.
    + rewrite IH. apply str_app_snoc.
Qed.

Lemma count_CR_app (a b : string) : count_CR (a +:+ b) = (count_CR a + count_CR b)%nat.
Proof. induction a as [|c a IH]; simpl; [done|]. rewrite IH. lia. Qed.

Lemma universal_newlines_CR_LF (r : string) :
  universal_newlines (String CR (String LF r)) = String LF (universal_newlines r).
Proof. reflexivity. Qed.

Lemma universal_newlines_CR (c : ascii) (r : string) :
  c <> LF ->
  universal_newlines (String CR (String c r))
    = String LF (universal_newlines (String c r)).
Proof.
  intros Hc. change (universal_newlines (String CR (String c r)))
    with (if decide (c = LF) then String LF (universal_newlines r)
          else String LF (universal_newlines (String c r))).
  by rewrite decide_False.
Qed.

Lemma universal_newlines_other (c : ascii) (r : string) :
  c <> CR -> universal_newlines (String c r) = String c (universal_newlines r).
Proof.
  intros Hc. change (universal_newlines (String c r))
    with (if decide (c = CR)
          then match r with
               | String c' r' =>
                   if decide (c' = LF) then String LF (universal_newlines r')
                   else String LF (universal_newlines r)
               | EmptyString => String LF EmptyString
               end
          else String c (universal_newlines r)).
  by rewrite decide_False.
Qed.

Lemma universal_newlines_no_CR (s : string) : count_CR (universal_newlines s) = 0%nat.
Proof.
  assert (H : forall n s, (String.length s <= n)%nat ->
            count_CR (universal_newlines s) = 0%nat).
  { clear s. induction n as [|n IH]; intros [|c r] Hlen; try done;
      [cbn in Hlen; lia|].
    assert (Hr : (String.length r <= n)%nat) by (cbn in Hlen; lia).
    destruct (decide (c = CR)) as [->|Hc].
    - destruct r as [|c' r']; [done|].
      destruct (decide (c' = LF)) as [->|Hc'].
      + rewrite universal_newlines_CR_LF. cbn [count_CR].
        rewrite decide_False by done. rewrite Nat.add_0_l. apply IH. cbn in Hr. lia.
      + rewrite universal_newlines_CR by done. cbn [count_CR].
        rewrite decide_False by done. rewrite Nat.add_0_l. by apply IH.
    - rewrite universal_newlines_other by done. cbn [count_CR].
      rewrite decide_False by done. rewrite Nat.add_0_l. by apply IH. }
  by apply (H (String.length s)).
Qed.

Lemma universal_newlines_id (s : string) :
  count_CR s = 0%nat -> universal_newlines s = s.
Proof.
  induction s as [|c s IH]; [done|]. cbn [count_CR].
  destruct (decide (c = CR)) as [->|Hc]; [lia|]. intros H. cbn in H.
  rewrite universal_newlines_other by done. by rewrite IH.
Qed.

Lemma readlines_from_well_cut (cur s : string) :
  count_CR cur = 0%nat -> count_LF cur = 0%nat -> count_CR s = 0%nat ->
  Forall well_cut (readlines_from cur s).
Proof.
  revert cur. induction s as [|c s IH]; intros cur Hcr Hlf Hs;
    cbn [readlines_from].
  - case_decide as Hc; [constructor|]. repeat constructor; [done|].
    exists cur. auto.
  - cbn [count_CR] in Hs.
    destruct (decide (c = CR)) as [->|Hncr]; [lia|]. cbn in Hs.
    case_decide as Hc.
    + subst c. constructor; [|by apply IH].
      split.
      * rewrite count_CR_app. cbn. rewrite decide_False by done. lia.
      * exists cur. auto.
    + apply IH; [| |done].
      * rewrite count_CR_app. cbn. rewrite decide_False by done. lia.
      * rewrite count_LF_app. cbn. rewrite decide_False by done. lia.
Qed.

Lemma readlines_from_terminated (cur s : string) (i : nat) (x : string) :
  readlines_from cur s !! i = Some x ->
  (S i < length (readlines_from cur s))%nat ->
  exists b : string, x = b +:+ String LF "".
Proof.
  revert cur i. induction s as [|c s IH]; intros cur i;
    cbn [readlines_from].
  - case_decide; cbn; intros _ Hlen; lia.
  - case_decide as Hc; [|apply IH].
    destruct i as [|i]; cbn.
    + intros [= <-] _. eauto.
    + intros Hx Hlen. apply (IH "" i); [done|lia].
Qed.


(** X11.  [read_wordlist] loses nothing: its lines, put end to end, are
    the text of the file with every carriage return (alone or before a
    line feed) read as a line feed, and the text itself when it has no
    carriage return. *)
Theorem read_wordlist_round_trip (txt : string) :
  join "" (read_wordlist txt) = universal_newlines txt /\
  (count_CR txt = 0%nat -> join "" (read_wordlist txt) = txt).
Proof.
  assert (H : join "" (read_wordlist txt) = universal_newlines txt).
  { unfold read_wordlist, readlines. by rewrite readlines_from_join. }
  split; [done|]. intros Hcr. by rewrite H, universal_newlines_id.
Qed.

(** X12.  Every line [read_wordlist] delivers is non-empty, holds no
    carriage return, and holds no line feed except possibly one as its
    last character; every line but the last does end with a line feed. *)
Theorem read_wordlist_lines_are_well_cut (txt : string) :
  Forall well_cut (read_wordlist txt) /\
  (forall (i : nat) (x : string),
      read_wordlist txt !! i = Some x ->
      (S i < length (read_wordlist txt))%nat ->
      exists b : string, x = b +:+ String LF "").
Proof.
  split.
  - apply readlines_from_well_cut; [done|done|apply universal_newlines_no_CR].
  - intros i x. apply readlines_from_terminated.
Qed.





Lemma ascii_is_utf8 (bs : list byte) :
  Forall (fun b => (Byte.to_N b < 128)%N) bs -> utf8_valid bs = true.
Proof.
  induction 1 as [|b bs Hb _ IH]; [done|]. cbn [utf8_valid].
  assert (Hin : byte_in 0 127 b = true).
  { unfold byte_in. apply andb_true_intro. split; apply N.leb_le; lia. }
  by rewrite Hin.
Qed.

(** X15.  Any body of plain ASCII bytes sent with [Content-Type:
    text/plain] is accepted, and the text stored under the name has
    exactly the bytes of the body. *)
Theorem ascii_text_is_stored_verbatim (w : World) (req : Request) (n : string) :
  wf w ->
  headers req !! "Content-Type" = Some "text/plain" ->
  Forall (fun b => (Byte.to_N b < 128)%N) (body req) ->
  exists (w' : World) (l : loc) (c : Clipboard),
    ClipsController.set_text req n w = (w', Return NoBody) /\
    clipboards w' !! n = Some l /\
    heap w' !! l = Some c /\
    String.list_byte_of_string (text c) = body req.
Proof.
  intros Hwf Hct Hascii. pose proof (ascii_is_utf8 _ Hascii) as Hv.
  destruct (get_clipboard_total w n) as (wg & l & Hg & Hl).
  assert (Hwfg : wf wg).
  { pose proof (get_clipboard_acts_on w n) as (_ & H & _).
    rewrite Hg in H. by apply H. }
  destruct (Hwfg _ _ Hl) as (c & Hc & _).
  rewrite (set_text_run _ _ _ _ _ _ Hct Hv Hg Hc).
  eexists _, l, _. split; [reflexivity|]. split; [done|].
  split; [cbn; by rewrite lookup_insert_eq|].
  cbn. apply String.list_byte_of_string_of_list_byte.
Qed.

Lemma ascii_text_is_stored_verbatim_witness :
  exists (w' : World) (l : loc) (c : Clipboard),
    ClipsController.set_text (plain_text_post hello) "demo" fine_world
      = (w', Return NoBody) /\
    clipboards w' !! "demo" = Some l /\
    heap w' !! l = Some c /\
    String.list_byte_of_string (text c) = hello.
Proof.
  apply (ascii_text_is_stored_verbatim fine_world (plain_text_post hello) "demo").
  - apply wf_boot.
  - vm_compute. reflexivity.
  - repeat constructor.
Defined.
